(** * MultiComboBox: the selection toggle and the open/closed state machine

    A shallow embedding of the [MultiComboBox] component
    (src/unnamed/part_000): its event handlers, its layout effect and the
    attributes of the text entry it renders, with the properties the
    specification states about them.

    Conventions of the embedding.
    - A handler of the component is a closure over the values of the render
      it was created in.  It is a function of the props [p] and of the
      state [s] of that render (the snapshot it reads) that returns a
      computation in the monad [Handler]: the computation threads the state
      the setters write and collects, in order, the calls made to the host
      and to the DOM.
    - A callback prop ([onDelete], [onBlur], ...) is modelled by whether the
      host passed it; the JS idiom [onDelete && onDelete(item)] is
      [when_ (onDelete p) (call (CallOnDelete item))].
    - The hooks [useFocusControl] and [useListBox] are parameters of the
      development (Section variables): the component is verified for every
      implementation of what it uses of them. *)

From stdpp Require Import base option list strings.

Open Scope string_scope.
Open Scope list_scope.

(** The calls a handler makes, in the order it makes them: the callbacks of
    the host and the methods of the DOM event and of the input element. *)
Inductive Call (Item : Type) : Type :=
| CallOnChange (text : string)
| CallOnChangeInput (text : string)
| CallOnAdd (text : string)
| CallOnDelete (item : Item)
| CallOnSelect (item : Item)
| CallOnChangeSelected (selected : list Item)
| CallOnFocus
| CallOnBlur
| DomStopPropagation
| DomPreventDefault
| DomFocusInput.

Arguments CallOnChange {Item} text.
Arguments CallOnChangeInput {Item} text.
Arguments CallOnAdd {Item} text.
Arguments CallOnDelete {Item} item.
Arguments CallOnSelect {Item} item.
Arguments CallOnChangeSelected {Item} selected.
Arguments CallOnFocus {Item}.
Arguments CallOnBlur {Item}.
Arguments DomStopPropagation {Item}.
Arguments DomPreventDefault {Item}.
Arguments DomFocusInput {Item}.

(** The value of a JSX attribute. *)
Inductive Attr : Type :=
| AStr (s : string)
| ABool (b : bool)
| ANum (n : Z).

(** [attr n v] is the JSX attribute [n={v}]; an attribute whose value is
    [undefined] is not rendered. *)
Definition attr (n : string) (v : option Attr) : list (string * Attr) :=
  match v with
  | Some a => [(n, a)]
  | None => []
  end.

(** The value of attribute [n] among the rendered attributes. *)
Fixpoint attr_lookup (n : string) (l : list (string * Attr)) : option Attr :=
  match l with
  | [] => None
  | (m, a) :: l' => if bool_decide (m = n) then Some a else attr_lookup n l'
  end.

Section MultiComboBox.

(** [V] is the type of the [value] of an item.  The handlers compare two
    values with [===] and [!==], which on strings, booleans, references to
    objects and numbers is the equality of the values (the number [NaN],
    which is not [===] to itself, is no value of [V]): on [V] they are the
    decidable equality and its negation.  The toggle with [===] as an
    arbitrary relation on the values, [NaN] included, is
    [handleSelectStrict], in the section [StrictEquality] below. *)
Context {V : Type} `{EqDecision V}.

(** Modelled from the spec: the type [ComboBoxItem] of [./types], which the
    component imports, with the flag the props add to it: this is
    [ComboBoxItem<T> & { deletable?: boolean }], the type of an entry of
    [selectedItems].  The handlers read [label], [value] and [deletable];
    [disabled] is the optional field the specification lists.  An optional
    field that is absent (or [undefined]) is [None].  The candidate of a
    selection has the same shape: an object of type [ComboBoxItem<T>] may
    carry the flag too, and [concat] stores it in the array as it is. *)
Record ComboBoxItem : Type := {
  label : string;
  value : V;
  item_disabled : option bool;
  deletable : option bool;
}.

(** Modelled from the spec: an option of the list box of [useListBox], an
    item with a stable identifier; the component reads the [id] of the
    active one. *)
Record ComboBoxOption : Type := {
  id : string;
  item : ComboBoxItem;
}.

(** The props of the component, after the defaults of the parameter list
    ([disabled = false], [error = false], [creatable = false],
    [placeholder = ''], [className = '']).  [inputValue] is the prop the
    component binds to [controlledInputValue].  The props that only reach
    the styles, the list box and the chips ([width], [dropdownWidth],
    [dropdownHelpMessage], [isLoading], [selectedItemEllipsis],
    [decorator]) are left out. *)
Record Props : Type := {
  items : list ComboBoxItem;
  selectedItems : list ComboBoxItem;
  name : option string;
  disabled : bool;
  error : bool;
  creatable : bool;
  placeholder : string;
  controlledInputValue : option string;
  className : string;
  onChange : bool;
  onChangeInput : bool;
  onAdd : bool;
  onDelete : bool;
  onSelect : bool;
  onChangeSelected : bool;
  onFocus : bool;
  onBlur : bool;
}.

(** The state of [useFocusControl] and of [useListBox], and what the
    component uses of the two hooks. *)
Context {FocusControl : Type}.
Variable focusPrevDeletionButton : nat -> FocusControl -> FocusControl.
Variable focusNextDeletionButton : nat -> FocusControl -> FocusControl.
Variable resetDeletionButtonFocus : FocusControl -> FocusControl.

Context {ListBox : Type}.
Variable activeOption : ListBox -> option ComboBoxOption.
Variable listBoxId : ListBox -> string.

(** The class name [useMultiComboBoxClassNames] gives the input. *)
Variable inputClassName : string.

(** The state the component holds: its three [useState] cells, the state
    of the two hooks and the identifier [useId] gave the list of chips. *)
Record State : Type := {
  isFocused : bool;
  uncontrolledInputValue : string;
  isComposing : bool;
  focusControl : FocusControl;
  listBox : ListBox;
  selectedListId : string;
}.

Definition isInputControlled (p : Props) : bool :=
  bool_decide (controlledInputValue p <> None).

Definition inputValue (p : Props) (s : State) : string :=
  match controlledInputValue p with
  | Some v => v
  | None => uncontrolledInputValue s
  end.

(** ** The handler monad *)

Definition Handler (A : Type) : Type :=
  State -> A * State * list (Call ComboBoxItem).

#[local] Instance handler_ret : MRet Handler :=
  fun A (a : A) s => (a, s, []).

#[local] Instance handler_bind : MBind Handler :=
  fun A B (f : A -> Handler B) (m : Handler A) s =>
    let '(a, s1, c1) := m s in
    let '(b, s2, c2) := f a s1 in
    (b, s2, c1 ++ c2).

Definition call (c : Call ComboBoxItem) : Handler unit :=
  fun s => (tt, s, [c]).

Definition skip : Handler unit := mret tt.

Definition when_ (b : bool) (h : Handler unit) : Handler unit :=
  if b then h else skip.

Definition setIsFocused (b : bool) : Handler unit :=
  fun s =>
    (tt, {| isFocused := b;
            uncontrolledInputValue := uncontrolledInputValue s;
            isComposing := isComposing s;
            focusControl := focusControl s;
            listBox := listBox s;
            selectedListId := selectedListId s |}, []).

Definition setUncontrolledInputValue (v : string) : Handler unit :=
  fun s =>
    (tt, {| isFocused := isFocused s;
            uncontrolledInputValue := v;
            isComposing := isComposing s;
            focusControl := focusControl s;
            listBox := listBox s;
            selectedListId := selectedListId s |}, []).

Definition setIsComposing (b : bool) : Handler unit :=
  fun s =>
    (tt, {| isFocused := isFocused s;
            uncontrolledInputValue := uncontrolledInputValue s;
            isComposing := b;
            focusControl := focusControl s;
            listBox := listBox s;
            selectedListId := selectedListId s |}, []).

Definition updFocusControl (f : FocusControl -> FocusControl) : Handler unit :=
  fun s =>
    (tt, {| isFocused := isFocused s;
            uncontrolledInputValue := uncontrolledInputValue s;
            isComposing := isComposing s;
            focusControl := f (focusControl s);
            listBox := listBox s;
            selectedListId := selectedListId s |}, []).

Definition setListBox (lb : ListBox) : Handler unit :=
  fun s =>
    (tt, {| isFocused := isFocused s;
            uncontrolledInputValue := uncontrolledInputValue s;
            isComposing := isComposing s;
            focusControl := focusControl s;
            listBox := lb;
            selectedListId := selectedListId s |}, []).

(** The state and the calls a handler leaves when it runs from [s]. *)
Definition state_of (h : Handler unit) (s : State) : State := (h s).1.2.
Definition calls_of (h : Handler unit) (s : State) : list (Call ComboBoxItem) :=
  (h s).2.

(** ** The selection toggle *)

(** [handleDelete]: [onDelete], then [onChangeSelected] with the entries
    that differ from [item] in label or in value. *)
Definition handleDelete (p : Props) (item : ComboBoxItem) : Handler unit :=
  when_ (onDelete p) (call (CallOnDelete item)) ;;
  when_ (onChangeSelected p)
    (call (CallOnChangeSelected
             (filter (fun selected =>
                        label selected <> label item \/ value selected <> value item)
                     (selectedItems p)))).

(** [selectedItems.find(...)]: the first entry with the label and the
    value of [selected], [None] for [undefined]. *)
Definition matchedSelectedItem (p : Props) (selected : ComboBoxItem)
  : option ComboBoxItem :=
  snd <$> list_find (fun item =>
                       label item = label selected /\ value item = value selected)
                    (selectedItems p).

Definition handleSelect (p : Props) (selected : ComboBoxItem) : Handler unit :=
  match matchedSelectedItem p selected with
  | Some matched =>
      if bool_decide (deletable matched <> Some false)
      then handleDelete p selected
      else skip
  | None =>
      when_ (onSelect p) (call (CallOnSelect selected)) ;;
      when_ (onChangeSelected p)
        (call (CallOnChangeSelected (selectedItems p ++ [selected])))
  end.


(** ** Focus, blur and the keyboard *)

Definition focus (p : Props) : Handler unit :=
  when_ (onFocus p) (call CallOnFocus) ;;
  setIsFocused true.

Definition blur (p : Props) (s : State) : Handler unit :=
  if negb (isFocused s) then skip
  else
    when_ (onBlur p) (call CallOnBlur) ;;
    setIsFocused false ;;
    updFocusControl resetDeletionButtonFocus.

(** What the key handler of [useListBox] can do with what the component
    hands it ([onAdd] and [onSelect: handleSelect]): change the state of the
    hook and commit options, each through one of the two callbacks. *)
Inductive Commit : Type :=
| CommitAdd (text : string)
| CommitSelect (selected : ComboBoxItem).

Variable listBoxKeyDown : Props -> State -> string -> ListBox * list Commit.

Definition commit (p : Props) (c : Commit) : Handler unit :=
  match c with
  | CommitAdd text => when_ (onAdd p) (call (CallOnAdd text))
  | CommitSelect selected => handleSelect p selected
  end.

Fixpoint commits (p : Props) (cs : list Commit) : Handler unit :=
  match cs with
  | [] => skip
  | c :: cs' => commit p c ;; commits p cs'
  end.

Definition handleListBoxKeyDown (p : Props) (s : State) (key : string)
  : Handler unit :=
  setListBox (listBoxKeyDown p s key).1 ;;
  commits p (listBoxKeyDown p s key).2.

(** [handleKeyDown].  [inputRef.current?.focus()] is the call
    [DomFocusInput]: the handler asks the browser to focus the input.  What
    the browser does then is not code of the handler: when the input takes
    the focus it sends the input its focus event, which is the event
    [InputFocus] of the component ([inputOnFocus]: a blurred widget is
    focused and [onFocus] is called).  The same holds of the focus the hook
    [useFocusControl] gives a deletion button or the input. *)
Definition handleKeyDown (p : Props) (s : State) (key : string) : Handler unit :=
  if isComposing s then skip
  else
    (if bool_decide (key = "Escape" \/ key = "Esc") then
       call DomStopPropagation ;;
       blur p s
     else if bool_decide (key = "Tab") then
       when_ (isFocused s) (call DomFocusInput) ;;
       blur p s
     else if bool_decide (key = "Left" \/ key = "ArrowLeft") then
       call DomStopPropagation ;;
       updFocusControl (focusPrevDeletionButton (length (selectedItems p)))
     else if bool_decide (key = "Right" \/ key = "ArrowRight") then
       call DomStopPropagation ;;
       updFocusControl (focusNextDeletionButton (length (selectedItems p)))
     else
       call DomStopPropagation ;;
       call DomFocusInput ;;
       updFocusControl resetDeletionButtonFocus) ;;
    handleListBoxKeyDown p s key.

Definition handleInputKeyDown (key : string) : Handler unit :=
  if bool_decide (key = "Down" \/ key = "ArrowDown" \/ key = "Up" \/ key = "ArrowUp")
  then call DomPreventDefault
  else skip.

(** ** The other handlers of the rendered tree *)

(** [onClick] of the container; [onDeleteButton] is the result of
    [hasParentElementByClassName(e.target, classNames.deleteButton)]. *)
Definition containerOnClick (p : Props) (s : State) (onDeleteButton : bool)
  : Handler unit :=
  if negb onDeleteButton && negb (disabled p) && negb (isFocused s)
  then focus p
  else skip.

(** [onChange] of the input; [text] is [e.currentTarget.value]. *)
Definition inputOnChange (p : Props) (text : string) : Handler unit :=
  when_ (onChange p) (call (CallOnChange text)) ;;
  when_ (onChangeInput p) (call (CallOnChangeInput text)) ;;
  when_ (negb (isInputControlled p)) (setUncontrolledInputValue text).

Definition inputOnFocus (p : Props) (s : State) : Handler unit :=
  updFocusControl resetDeletionButtonFocus ;;
  when_ (negb (isFocused s)) (focus p).

Definition onCompositionStart : Handler unit := setIsComposing true.
Definition onCompositionEnd : Handler unit := setIsComposing false.

(** ** The layout effect *)

(** The body of the effect of the render of [p] and [s]; the effect runs
    after the DOM is updated, when [inputRef.current] is the input. *)
Definition layoutEffect (p : Props) (s : State) : Handler unit :=
  when_ (negb (isInputControlled p)) (setUncontrolledInputValue "") ;;
  when_ (isFocused s) (call DomFocusInput).

(** The dependencies [inputRef, isFocused, isInputControlled, selectedItems]
    of the effect, compared between the render of [p0], [s0] and the next
    one, of [p1], [s1].  [inputRef] is the same object in every render;
    arrays are compared by identity, and [sameArray] says that the host
    passed the array object of the previous render again. *)
Definition depsChanged (sameArray : bool) (p0 : Props) (s0 : State)
  (p1 : Props) (s1 : State) : bool :=
  negb (bool_decide (isFocused s0 = isFocused s1))
  || negb (bool_decide (isInputControlled p0 = isInputControlled p1))
  || negb sameArray.

(** What runs when the render of [p1], [s1] that follows the render of
    [p0], [s0] is committed. *)
Definition afterRender (sameArray : bool) (p0 : Props) (s0 : State)
  (p1 : Props) (s1 : State) : Handler unit :=
  when_ (depsChanged sameArray p0 s0 p1 s1) (layoutEffect p1 s1).

(** ** The events of the component *)

Inductive Event : Type :=
| ContainerClick (onDeleteButton : bool)
| KeyDown (key : string)
| InputKeyDown (key : string)
| InputChange (text : string)
| InputFocus
| CompositionStart
| CompositionEnd
| OuterClick
| ChipDelete (item : ComboBoxItem)
| OptionCommit (c : Commit).

(** The handlers an event reaches.  A key pressed in the input reaches
    [handleInputKeyDown] and then, since the event bubbles, the
    [handleKeyDown] of the container; a click outside of the container and
    of the list box reaches [blur] through [useOuterClick]; a chip calls
    the [onDelete] it was given, [handleDelete].  The focus event the
    browser sends the input, after a call of its [focus] method
    ([DomFocusInput]) or on its own, is the event [InputFocus]. *)
Definition handle (p : Props) (s : State) (ev : Event) : Handler unit :=
  match ev with
  | ContainerClick onDeleteButton => containerOnClick p s onDeleteButton
  | KeyDown key => handleKeyDown p s key
  | InputKeyDown key => handleInputKeyDown key ;; handleKeyDown p s key
  | InputChange text => inputOnChange p text
  | InputFocus => inputOnFocus p s
  | CompositionStart => onCompositionStart
  | CompositionEnd => onCompositionEnd
  | OuterClick => blur p s
  | ChipDelete item => handleDelete p item
  | OptionCommit c => commit p c
  end.

(** One event under the props [p]: its handlers run on the state [s] of the
    current render, then the next render is committed. *)
Definition step (p : Props) (s : State) (ev : Event)
  : State * list (Call ComboBoxItem) :=
  let '(_, s1, c1) := handle p s ev s in
  let '(_, s2, c2) := afterRender true p s p s1 s1 in
  (s2, c1 ++ c2).

Fixpoint run (p : Props) (evs : list Event) (s : State)
  : State * list (Call ComboBoxItem) :=
  match evs with
  | [] => (s, [])
  | ev :: evs' =>
      let '(s1, c1) := step p s ev in
      let '(s2, c2) := run p evs' s1 in
      (s2, c1 ++ c2)
  end.

(** ** The text entry *)

(** The attributes of the [Input] element the component renders, in the
    order of the source ([ref], [themes] and the handlers left out). *)
Definition renderInput (p : Props) (s : State) : list (string * Attr) :=
  attr "type" (Some (AStr "text"))
  ++ attr "name" (AStr <$> name p)
  ++ attr "value" (Some (AStr (inputValue p s)))
  ++ attr "disabled" (Some (ABool (disabled p)))
  ++ attr "autoComplete" (Some (AStr "off"))
  ++ attr "tabIndex" (Some (ANum 0))
  ++ attr "role" (Some (AStr "combobox"))
  ++ attr "aria-activedescendant" (AStr ∘ id <$> activeOption (listBox s))
  ++ attr "aria-controls"
       (Some (AStr (String.append (listBoxId (listBox s))
                      (String.append " " (selectedListId s)))))
  ++ attr "aria-haspopup" (Some (AStr "listbox"))
  ++ attr "aria-expanded" (Some (ABool (isFocused s)))
  ++ attr "aria-invalid" (if error p then Some (ABool true) else None)
  ++ attr "aria-disabled" (Some (ABool (disabled p)))
  ++ attr "aria-autocomplete" (Some (AStr "list"))
  ++ attr "className" (Some (AStr inputClassName)).


(** ** Vocabulary of the properties *)

(** Two items with the same label and the same value. *)
Definition sameLabelValue (a b : ComboBoxItem) : Prop :=
  label a = label b /\ value a = value b.

(** [matched] is the first entry of [l] with the label and the value of
    [selected]: the entry at index [i], and no entry before it matches. *)
Definition firstMatch (l : list ComboBoxItem) (selected : ComboBoxItem)
  (i : nat) (matched : ComboBoxItem) : Prop :=
  l !! i = Some matched
  /\ sameLabelValue matched selected
  /\ forall j e, l !! j = Some e -> j < i -> ~ sameLabelValue e selected.

(** The call [c], made when the host passed the callback. *)
Definition fired (supplied : bool) (c : Call ComboBoxItem)
  : list (Call ComboBoxItem) :=
  if supplied then [c] else [].

(** The array of the last call of [onChangeSelected] among [calls]. *)
Fixpoint changeSelected (calls : list (Call ComboBoxItem))
  : option (list ComboBoxItem) :=
  match calls with
  | [] => None
  | CallOnChangeSelected l :: calls' =>
      match changeSelected calls' with
      | Some l' => Some l'
      | None => Some l
      end
  | _ :: calls' => changeSelected calls'
  end.

(** The props of the next render when the host stores the array it was
    given as the new [selectedItems]. *)
Definition withSelectedItems (p : Props) (l : list ComboBoxItem) : Props :=
  {| items := items p;
     selectedItems := l;
     name := name p;
     disabled := disabled p;
     error := error p;
     creatable := creatable p;
     placeholder := placeholder p;
     controlledInputValue := controlledInputValue p;
     className := className p;
     onChange := onChange p;
     onChangeInput := onChangeInput p;
     onAdd := onAdd p;
     onDelete := onDelete p;
     onSelect := onSelect p;
     onChangeSelected := onChangeSelected p;
     onFocus := onFocus p;
     onBlur := onBlur p |}.

Definition isOnBlur (c : Call ComboBoxItem) : bool :=
  match c with
  | CallOnBlur => true
  | _ => false
  end.

Definition isOnFocus (c : Call ComboBoxItem) : bool :=
  match c with
  | CallOnFocus => true
  | _ => false
  end.

(** How many of [calls] are of the kind [kind]. *)
Definition timesFired (kind : Call ComboBoxItem -> bool)
  (calls : list (Call ComboBoxItem)) : nat :=
  length (List.filter kind calls).

Definition isContainerClick (ev : Event) : bool :=
  match ev with
  | ContainerClick _ => true
  | _ => false
  end.

Definition isKeyEvent (ev : Event) : bool :=
  match ev with
  | KeyDown _ | InputKeyDown _ => true
  | _ => false
  end.

(** * Properties *)

(** ** The handler monad *)

Lemma bind_run {A B : Type} (m : Handler A) (f : A -> Handler B) (s : State) :
  (m ≫= f) s = let '(a, s1, c1) := m s in
               let '(b, s2, c2) := f a s1 in (b, s2, c1 ++ c2).
Proof. reflexivity. Qed.

Lemma when_call_run (b : bool) (c : Call ComboBoxItem) (s : State) :
  when_ b (call c) s = (tt, s, fired b c).
Proof. destruct b; reflexivity. Qed.

(** ** The lookup of the toggle *)

Lemma matchedSelectedItem_first (p : Props) (selected matched : ComboBoxItem) :
  matchedSelectedItem p selected = Some matched
  <-> exists i, firstMatch (selectedItems p) selected i matched.
Proof.
  unfold matchedSelectedItem, firstMatch, sameLabelValue. split.
  - intros Hm. apply fmap_Some in Hm as [[i x] [Hf ->]].
    apply list_find_Some in Hf as (Hi & Hx & Hlt). exists i. simpl.
    split; [exact Hi | split; [exact Hx | ]].
    intros j e Hj Hji. exact (Hlt j e Hj Hji).
  - intros (i & Hi & Hx & Hlt). apply fmap_Some. exists (i, matched).
    split; [ | reflexivity]. apply list_find_Some.
    split; [exact Hi | split; [exact Hx | ]].
    intros j e Hj Hji. exact (Hlt j e Hj Hji).
Qed.

Lemma matchedSelectedItem_none (p : Props) (selected : ComboBoxItem) :
  matchedSelectedItem p selected = None
  <-> forall e, e ∈ selectedItems p -> ~ sameLabelValue e selected.
Proof.
  unfold matchedSelectedItem, sameLabelValue. rewrite fmap_None, list_find_None.
  rewrite Forall_forall. reflexivity.
Qed.

(** What [handleDelete] keeps: the entries that do not have both the label
    and the value of [item]. *)
Lemma handleDelete_filter (l : list ComboBoxItem) (item : ComboBoxItem) :
  filter (fun selected =>
            label selected <> label item \/ value selected <> value item) l
  = filter (fun selected => ~ sameLabelValue selected item) l.
Proof.
  apply list_filter_iff. intros e. unfold sameLabelValue. split.
  - intros [Hl | Hv] [Hl' Hv']; contradiction.
  - intros Hn. destruct (decide (label e = label item)) as [Hl | Hl].
    + right. intros Hv. apply Hn. split; assumption.
    + left. exact Hl.
Qed.

Lemma handleDelete_run (p : Props) (item : ComboBoxItem) (s : State) :
  handleDelete p item s
  = (tt, s,
     fired (onDelete p) (CallOnDelete item)
     ++ fired (onChangeSelected p)
          (CallOnChangeSelected
             (filter (fun e => ~ sameLabelValue e item) (selectedItems p)))).
Proof.
  unfold handleDelete. rewrite bind_run, !when_call_run.
  rewrite handleDelete_filter. reflexivity.
Qed.


(** ** The selection toggle *)

(** The two branches of the toggle that make calls, by the result of the
    lookup. *)
Lemma handleSelect_matched (p : Props) (selected matched : ComboBoxItem)
  (s : State) :
  matchedSelectedItem p selected = Some matched ->
  deletable matched <> Some false ->
  handleSelect p selected s
  = (tt, s,
     fired (onDelete p) (CallOnDelete selected)
     ++ fired (onChangeSelected p)
          (CallOnChangeSelected
             (filter (fun e => ~ sameLabelValue e selected) (selectedItems p)))).
Proof.
  intros Hm Hdel. unfold handleSelect. rewrite Hm.
  rewrite bool_decide_eq_true_2 by exact Hdel.
  apply handleDelete_run.
Qed.

Lemma handleSelect_unmatched (p : Props) (selected : ComboBoxItem) (s : State) :
  matchedSelectedItem p selected = None ->
  handleSelect p selected s
  = (tt, s,
     fired (onSelect p) (CallOnSelect selected)
     ++ fired (onChangeSelected p)
          (CallOnChangeSelected (selectedItems p ++ [selected]))).
Proof.
  intros Hnone. unfold handleSelect. rewrite Hnone.
  rewrite bind_run, !when_call_run. reflexivity.
Qed.

(** C1 (as amended): for every candidate [selected] and every array
    [selectedItems], if the first entry of [selectedItems] that has the label
    and the value of the candidate has a [deletable] flag that is not
    explicitly [false], the toggle changes no state and calls [onDelete] with
    the candidate and then [onChangeSelected] with [selectedItems] without
    every entry whose label and value both equal the candidate's (each call
    is made when the host passed the callback); entries are matched by label
    and value, not by identity. *)
Theorem handleSelect_deletes_selected (p : Props) (selected : ComboBoxItem)
  (s : State) (i : nat) (matched : ComboBoxItem) :
  firstMatch (selectedItems p) selected i matched ->
  deletable matched <> Some false ->
  handleSelect p selected s
  = (tt, s,
     fired (onDelete p) (CallOnDelete selected)
     ++ fired (onChangeSelected p)
          (CallOnChangeSelected
             (filter (fun e => ~ sameLabelValue e selected) (selectedItems p)))).
Proof.
  intros Hfirst Hdel. apply (handleSelect_matched p selected matched s).
  - apply matchedSelectedItem_first. exists i. exact Hfirst.
  - exact Hdel.
Qed.

(** C2: for every candidate [selected] and every array [selectedItems], if no
    entry of [selectedItems] has both the label and the value of the
    candidate, the toggle changes no state and calls [onSelect] with the
    candidate and then [onChangeSelected] with [selectedItems] followed by
    the candidate (each call is made when the host passed the callback). *)
Theorem handleSelect_appends_unselected (p : Props) (selected : ComboBoxItem)
  (s : State) :
  (forall e, e ∈ selectedItems p -> ~ sameLabelValue e selected) ->
  handleSelect p selected s
  = (tt, s,
     fired (onSelect p) (CallOnSelect selected)
     ++ fired (onChangeSelected p)
          (CallOnChangeSelected (selectedItems p ++ [selected]))).
Proof.
  intros Hnone. apply handleSelect_unmatched.
  apply matchedSelectedItem_none. exact Hnone.
Qed.

(** C3: for every candidate that is already selected and whose matched entry
    (the first entry of [selectedItems] with its label and value) has
    [deletable === false], the toggle does nothing: it makes no call, so none
    of [onDelete], [onSelect] and [onChangeSelected], and it leaves the state
    as it is. *)
Theorem handleSelect_locked_noop (p : Props) (selected : ComboBoxItem)
  (s : State) (i : nat) (matched : ComboBoxItem) :
  firstMatch (selectedItems p) selected i matched ->
  deletable matched = Some false ->
  handleSelect p selected s = (tt, s, []).
Proof.
  intros Hfirst Hdel.
  assert (Hm : matchedSelectedItem p selected = Some matched).
  { apply matchedSelectedItem_first. exists i. exact Hfirst. }
  unfold handleSelect. rewrite Hm.
  rewrite bool_decide_eq_false_2; [reflexivity | ].
  intros Hne. apply Hne. exact Hdel.
Qed.

Lemma changeSelected_fired (b : bool) (c : Call ComboBoxItem)
  (l : list ComboBoxItem) :
  changeSelected (fired b c ++ fired true (CallOnChangeSelected l)) = Some l.
Proof. destruct b; simpl; [destruct c | ]; reflexivity. Qed.

Lemma firstMatch_after_append (l : list ComboBoxItem) (o : ComboBoxItem) :
  (forall e, e ∈ l -> ~ sameLabelValue e o) ->
  firstMatch (l ++ [o]) o (length l) o.
Proof.
  intros Hnone. unfold firstMatch. split; [ | split].
  - rewrite lookup_app_r by lia. rewrite Nat.sub_diag. reflexivity.
  - split; reflexivity.
  - intros j e Hj Hlt. rewrite lookup_app_l in Hj by exact Hlt.
    apply Hnone. apply list_elem_of_lookup. exists j. exact Hj.
Qed.

Lemma filter_keeps_all (l : list ComboBoxItem) (o : ComboBoxItem) :
  (forall e, e ∈ l -> ~ sameLabelValue e o) ->
  filter (fun e => ~ sameLabelValue e o) l = l.
Proof.
  induction l as [ | a l IH]; intros Hnone; [reflexivity | ].
  rewrite filter_cons_True by (apply Hnone; left).
  f_equal. apply IH. intros e He. apply Hnone. right. exact He.
Qed.

Lemma filter_after_append (l : list ComboBoxItem) (o : ComboBoxItem) :
  (forall e, e ∈ l -> ~ sameLabelValue e o) ->
  filter (fun e => ~ sameLabelValue e o) (l ++ [o]) = l.
Proof.
  intros Hnone. rewrite filter_app, (filter_keeps_all l o Hnone).
  rewrite filter_cons_False, filter_nil.
  - apply app_nil_r.
  - intros Hn. apply Hn. split; reflexivity.
Qed.

(** The round trip of the toggle on a type of values whose [===] is the
    equality (for an arbitrary [===] see
    [toggle_twice_round_trip_strict]): for every array [selectedItems] with
    no entry that matches the option [o] on label and value, and with the
    [deletable] flag of [o] unset, toggling [o] passes [onChangeSelected] an
    array, and toggling [o] again against that array passes
    [onChangeSelected] the original [selectedItems], element for element. *)
Theorem toggle_twice_round_trip (p : Props) (o : ComboBoxItem) (s s' : State) :
  onChangeSelected p = true ->
  (forall e, e ∈ selectedItems p -> ~ sameLabelValue e o) ->
  deletable o = None ->
  exists once,
    changeSelected (calls_of (handleSelect p o) s) = Some once
    /\ once = selectedItems p ++ [o]
    /\ changeSelected (calls_of (handleSelect (withSelectedItems p once) o) s')
       = Some (selectedItems p).
Proof.
  intros Hcb Hnone Hflag. exists (selectedItems p ++ [o]).
  split; [ | split; [reflexivity | ]].
  - unfold calls_of. rewrite handleSelect_unmatched.
    + simpl. rewrite Hcb. apply changeSelected_fired.
    + apply matchedSelectedItem_none. exact Hnone.
  - unfold calls_of.
    rewrite (handleSelect_matched
               (withSelectedItems p (selectedItems p ++ [o])) o o s').
    + simpl. rewrite Hcb, (filter_after_append _ _ Hnone).
      apply changeSelected_fired.
    + apply matchedSelectedItem_first. exists (length (selectedItems p)).
      simpl. apply firstMatch_after_append. exact Hnone.
    + rewrite Hflag. discriminate.
Qed.



(** ** Calls that never reach [onBlur] or [onFocus] *)

Lemma timesFired_app (kind : Call ComboBoxItem -> bool)
  (c1 c2 : list (Call ComboBoxItem)) :
  timesFired kind (c1 ++ c2) = timesFired kind c1 + timesFired kind c2.
Proof. unfold timesFired. rewrite List.filter_app, length_app. reflexivity. Qed.

Lemma timesFired_fired (kind : Call ComboBoxItem -> bool) (b : bool)
  (c : Call ComboBoxItem) :
  timesFired kind (fired b c) = if b && kind c then 1 else 0.
Proof. destruct b; simpl; [ | reflexivity]. unfold timesFired. simpl. destruct (kind c); reflexivity. Qed.

(** The toggle leaves the state alone and reaches neither [onBlur] nor
    [onFocus]. *)
Lemma handleSelect_frame (p : Props) (selected : ComboBoxItem) (s : State) :
  exists calls,
    handleSelect p selected s = (tt, s, calls)
    /\ timesFired isOnBlur calls = 0
    /\ timesFired isOnFocus calls = 0.
Proof.
  unfold handleSelect. destruct (matchedSelectedItem p selected) as [matched | ].
  - destruct (bool_decide (deletable matched <> Some false)).
    + rewrite handleDelete_run. eexists. split; [reflexivity | ].
      rewrite !timesFired_app, !timesFired_fired. simpl.
      rewrite !andb_false_r. split; reflexivity.
    + exists []. repeat split.
  - rewrite bind_run, !when_call_run. eexists. split; [reflexivity | ].
    rewrite !timesFired_app, !timesFired_fired. simpl.
    rewrite !andb_false_r. split; reflexivity.
Qed.

Lemma commits_frame (p : Props) (cs : list Commit) (s : State) :
  exists calls,
    commits p cs s = (tt, s, calls)
    /\ timesFired isOnBlur calls = 0
    /\ timesFired isOnFocus calls = 0.
Proof.
  induction cs as [ | c cs IH]; simpl.
  - exists []. repeat split.
  - destruct IH as (calls2 & Hrun2 & Hb2 & Hf2).
    assert (Hc : exists calls1, commit p c s = (tt, s, calls1)
                   /\ timesFired isOnBlur calls1 = 0
                   /\ timesFired isOnFocus calls1 = 0).
    { destruct c as [text | selected]; simpl.
      - rewrite when_call_run. eexists. split; [reflexivity | ].
        rewrite !timesFired_fired. simpl. rewrite !andb_false_r.
        split; reflexivity.
      - apply handleSelect_frame. }
    destruct Hc as (calls1 & Hrun1 & Hb1 & Hf1).
    exists (calls1 ++ calls2). rewrite bind_run, Hrun1, Hrun2.
    split; [reflexivity | ]. rewrite !timesFired_app, Hb1, Hb2, Hf1, Hf2.
    split; reflexivity.
Qed.

(** The key handler of the list box changes the state of its hook and
    nothing else of the state, whatever [useListBox] does. *)
Lemma handleListBoxKeyDown_frame (p : Props) (s : State) (key : string)
  (s1 : State) :
  exists calls,
    handleListBoxKeyDown p s key s1
    = (tt, state_of (setListBox (listBoxKeyDown p s key).1) s1, calls)
    /\ timesFired isOnBlur calls = 0
    /\ timesFired isOnFocus calls = 0.
Proof.
  unfold handleListBoxKeyDown. rewrite bind_run.
  destruct (commits_frame p (listBoxKeyDown p s key).2
              (state_of (setListBox (listBoxKeyDown p s key).1) s1))
    as (calls & Hrun & Hb & Hf).
  exists calls. unfold state_of in *. simpl in *. rewrite Hrun.
  split; [reflexivity | split; assumption].
Qed.

(** [run_handler] runs the primitives of the monad in the goal, up to the
    key handler of the list box; [use_list_box_frame] then replaces the run
    of that handler by the state and the calls its frame lemma gives. *)
Ltac run_handler :=
  unfold mbind, handler_bind, mret, handler_ret, skip, when_, call,
    setIsFocused, setUncontrolledInputValue, setIsComposing, updFocusControl;
  cbn -[handleListBoxKeyDown timesFired].

Ltac use_list_box_frame p s key calls Hb :=
  match goal with
  | |- context [handleListBoxKeyDown p s key ?s1] =>
      let Hrun := fresh "Hrun" in
      destruct (handleListBoxKeyDown_frame p s key s1)
        as (calls & Hrun & Hb & _);
      rewrite Hrun; clear Hrun
  end;
  unfold state_of, setListBox; cbn -[timesFired].

(** The commit of a render writes the text of the widget at most, and
    calls nothing but the [focus] of the input. *)
Lemma afterRender_frame (sameArray : bool) (p0 : Props) (s0 : State)
  (p1 : Props) (s1 s2 : State) :
  exists s3 calls,
    afterRender sameArray p0 s0 p1 s1 s2 = (tt, s3, calls)
    /\ isFocused s3 = isFocused s2
    /\ isComposing s3 = isComposing s2
    /\ focusControl s3 = focusControl s2
    /\ listBox s3 = listBox s2
    /\ timesFired isOnBlur calls = 0
    /\ timesFired isOnFocus calls = 0.
Proof.
  unfold afterRender, layoutEffect.
  destruct (depsChanged sameArray p0 s0 p1 s1),
    (isInputControlled p1), (isFocused s1);
    run_handler; eexists; eexists; repeat split.
Qed.

(** What an event leaves of the focus and of [onBlur] once the next render
    is committed is what its handlers leave. *)
Lemma step_frame (p : Props) (s : State) (ev : Event) :
  isFocused (step p s ev).1 = isFocused (state_of (handle p s ev) s)
  /\ focusControl (step p s ev).1 = focusControl (state_of (handle p s ev) s)
  /\ timesFired isOnBlur (step p s ev).2
     = timesFired isOnBlur (calls_of (handle p s ev) s).
Proof.
  unfold step, state_of, calls_of.
  destruct (handle p s ev s) as [[u s1] c1].
  destruct (afterRender_frame true p s p s1 s1)
    as (s3 & calls & Hrun & Hfoc & _ & Hctl & _ & Hblur & _).
  rewrite Hrun. simpl. rewrite timesFired_app, Hblur, Nat.add_0_r.
  repeat split; assumption.
Qed.

(** A key pressed in the input reaches the key handler of the widget after
    the handler of the input, which writes no state and never calls
    [onBlur]. *)
Lemma inputKeyDown_frame (p : Props) (s : State) (key : string) :
  state_of (handle p s (InputKeyDown key)) s = state_of (handleKeyDown p s key) s
  /\ timesFired isOnBlur (calls_of (handle p s (InputKeyDown key)) s)
     = timesFired isOnBlur (calls_of (handleKeyDown p s key) s).
Proof.
  unfold state_of, calls_of. simpl. rewrite bind_run.
  unfold handleInputKeyDown.
  destruct (bool_decide _); simpl;
    destruct (handleKeyDown p s key s) as [[u s1] c1]; split; reflexivity.
Qed.

(** ** Escape *)

(** C5: in every state where the widget is focused and no composition is in
    progress, the Escape key ([Escape], or [Esc] in older browsers) makes the
    widget blurred, resets the focus of the deletion buttons and calls
    [onBlur] exactly once (when the host passed it); Escape in a blurred
    widget calls [onBlur] zero times and leaves the widget blurred.  This is
    so for the key handler of the widget and for the whole event, pressed in
    the input or elsewhere in the widget, with the commit of the next
    render. *)
Theorem escape_blurs_once (p : Props) (s : State) (key : string) :
  key = "Escape" \/ key = "Esc" ->
  isComposing s = false ->
  (isFocused s = true ->
   isFocused (state_of (handleKeyDown p s key) s) = false
   /\ focusControl (state_of (handleKeyDown p s key) s)
      = resetDeletionButtonFocus (focusControl s)
   /\ timesFired isOnBlur (calls_of (handleKeyDown p s key) s)
      = (if onBlur p then 1 else 0))
  /\ (isFocused s = false ->
      isFocused (state_of (handleKeyDown p s key) s) = false
      /\ focusControl (state_of (handleKeyDown p s key) s) = focusControl s
      /\ timesFired isOnBlur (calls_of (handleKeyDown p s key) s) = 0)
  /\ (forall ev,
        ev = KeyDown key \/ ev = InputKeyDown key ->
        isFocused (step p s ev).1 = false
        /\ focusControl (step p s ev).1
           = (if isFocused s then resetDeletionButtonFocus (focusControl s)
              else focusControl s)
        /\ timesFired isOnBlur (step p s ev).2
           = (if isFocused s && onBlur p then 1 else 0)).
Proof.
  intros Hkey Hcomp.
  assert (Hfocused : isFocused s = true ->
            isFocused (state_of (handleKeyDown p s key) s) = false
            /\ focusControl (state_of (handleKeyDown p s key) s)
               = resetDeletionButtonFocus (focusControl s)
            /\ timesFired isOnBlur (calls_of (handleKeyDown p s key) s)
               = (if onBlur p then 1 else 0)).
  { intros Hfoc. unfold state_of, calls_of, handleKeyDown, blur.
    rewrite Hcomp, bool_decide_eq_true_2 by exact Hkey.
    rewrite Hfoc; simpl negb; cbv iota.
    destruct (onBlur p); run_handler; use_list_box_frame p s key calls Hb;
      (split; [reflexivity | split; [reflexivity | ]]).
    - change (timesFired isOnBlur ([DomStopPropagation; CallOnBlur] ++ calls) = 1).
      rewrite timesFired_app, Hb. reflexivity.
    - change (timesFired isOnBlur ([DomStopPropagation] ++ calls) = 0).
      rewrite timesFired_app, Hb. reflexivity. }
  assert (Hblurred : isFocused s = false ->
            isFocused (state_of (handleKeyDown p s key) s) = false
            /\ focusControl (state_of (handleKeyDown p s key) s) = focusControl s
            /\ timesFired isOnBlur (calls_of (handleKeyDown p s key) s) = 0).
  { intros Hfoc. unfold state_of, calls_of, handleKeyDown, blur.
    rewrite Hcomp, bool_decide_eq_true_2 by exact Hkey.
    rewrite Hfoc; simpl negb; cbv iota.
    run_handler. use_list_box_frame p s key calls Hb.
    split; [exact Hfoc | split; [reflexivity | ]].
    change (timesFired isOnBlur ([DomStopPropagation] ++ calls) = 0).
    rewrite timesFired_app, Hb. reflexivity. }
  split; [exact Hfocused | split; [exact Hblurred | ]].
  intros ev Hev.
  destruct (step_frame p s ev) as (-> & -> & ->).
  assert (Hsame : state_of (handle p s ev) s = state_of (handleKeyDown p s key) s
                  /\ timesFired isOnBlur (calls_of (handle p s ev) s)
                     = timesFired isOnBlur (calls_of (handleKeyDown p s key) s)).
  { destruct Hev as [-> | ->]; [split; reflexivity | apply inputKeyDown_frame]. }
  destruct Hsame as [-> ->].
  destruct (isFocused s) eqn:Hfoc; simpl.
  - apply Hfocused. reflexivity.
  - apply Hblurred. reflexivity.
Qed.


(** ** Composition *)

Lemma depsChanged_same (p : Props) (s : State) :
  depsChanged true p s p s = false.
Proof.
  unfold depsChanged. rewrite !bool_decide_eq_true_2 by reflexivity.
  reflexivity.
Qed.

(** An event that changes no state is followed by a render that runs no
    effect. *)
Lemma step_unchanged (p : Props) (s : State) (ev : Event)
  (calls : list (Call ComboBoxItem)) :
  handle p s ev s = (tt, s, calls) -> step p s ev = (s, calls).
Proof.
  intros Hrun. unfold step, afterRender. rewrite Hrun, depsChanged_same.
  simpl. rewrite app_nil_r. reflexivity.
Qed.

(** The composition flag is what the two composition events of the input
    write, and they write nothing else. *)
Lemma composition_flag (p : Props) (s : State) :
  isComposing (step p s CompositionStart).1 = true
  /\ isComposing (step p s CompositionEnd).1 = false
  /\ isFocused (step p s CompositionStart).1 = isFocused s
  /\ isFocused (step p s CompositionEnd).1 = isFocused s
  /\ (step p s CompositionStart).2 = []
  /\ (step p s CompositionEnd).2 = [].
Proof.
  unfold step, afterRender, depsChanged. simpl.
  rewrite !bool_decide_eq_true_2 by reflexivity.
  simpl. repeat split.
Qed.

(** C6: while a composition (IME) session is in progress, the key handler of
    the widget does nothing for any key, so for Escape, Tab and the arrow
    keys: it returns before it blurs, moves the focus of the deletion
    buttons or reaches the list box, calls no callback and changes no state.
    Over any sequence of key events, pressed in the input or elsewhere in
    the widget, the state stays as it is and the only call made is the
    [preventDefault] of the input for the up and down arrows. *)
Theorem composing_suppresses_keys (p : Props) (s : State) :
  isComposing s = true ->
  (forall key, handleKeyDown p s key s = (tt, s, []))
  /\ (forall keys, run p (KeyDown <$> keys) s = (s, []))
  /\ (forall evs,
        Forall (fun ev => isKeyEvent ev = true) evs ->
        (run p evs s).1 = s
        /\ Forall (fun c => c = DomPreventDefault) (run p evs s).2).
Proof.
  intros Hcomp.
  assert (Hkey : forall key, handleKeyDown p s key s = (tt, s, [])).
  { intros key. unfold handleKeyDown. rewrite Hcomp. reflexivity. }
  split; [exact Hkey | split].
  - intros keys. induction keys as [ | key keys IH]; [reflexivity | ].
    rewrite fmap_cons. cbn [run].
    rewrite (step_unchanged p s (KeyDown key) []) by apply Hkey.
    rewrite IH. reflexivity.
  - intros evs Hevs. induction Hevs as [ | ev evs Hev _ IH]; simpl.
    + split; [reflexivity | constructor].
    + assert (Hstep : exists calls,
                 step p s ev = (s, calls)
                 /\ Forall (fun c => c = DomPreventDefault) calls).
      { destruct ev as [ | key | key | | | | | | | ]; try discriminate Hev.
        - exists []. split; [ | constructor].
          apply step_unchanged. apply Hkey.
        - exists (calls_of (handleInputKeyDown key) s). split.
          + apply step_unchanged. simpl. rewrite bind_run.
            unfold calls_of, handleInputKeyDown.
            destruct (bool_decide _); simpl; rewrite Hkey; reflexivity.
          + unfold calls_of, handleInputKeyDown.
            destruct (bool_decide _); simpl; repeat constructor. }
      destruct Hstep as (calls & -> & Hcalls).
      destruct (run p evs s) as [s2 c2]. simpl in *.
      destruct IH as [-> Hc2]. split; [reflexivity | ].
      apply Forall_app. split; assumption.
Qed.

(** ** Entering the focused state *)

(** C7: for every transition into the focused state, from the render of
    [p0], [s0] where the widget is blurred to the render of [p1], [s1] where
    it is focused: when the text is not host-controlled (the [inputValue]
    prop is undefined), the layout effect of the new render clears the text
    of the widget, which then shows the empty string; when the text is
    host-controlled, the value shown stays the one of the host and the text
    of the widget is not written. *)
Theorem entering_focused_clears_text (sameArray : bool) (p0 : Props)
  (s0 : State) (p1 : Props) (s1 : State) :
  isFocused s0 = false ->
  isFocused s1 = true ->
  (controlledInputValue p1 = None ->
   uncontrolledInputValue (state_of (afterRender sameArray p0 s0 p1 s1) s1) = ""
   /\ inputValue p1 (state_of (afterRender sameArray p0 s0 p1 s1) s1) = "")
  /\ (forall v, controlledInputValue p1 = Some v ->
      inputValue p1 (state_of (afterRender sameArray p0 s0 p1 s1) s1)
      = inputValue p1 s1
      /\ inputValue p1 s1 = v
      /\ uncontrolledInputValue (state_of (afterRender sameArray p0 s0 p1 s1) s1)
         = uncontrolledInputValue s1).
Proof.
  intros Hblurred Hfocused.
  assert (Hdeps : depsChanged sameArray p0 s0 p1 s1 = true).
  { unfold depsChanged. rewrite Hblurred, Hfocused.
    rewrite bool_decide_eq_false_2 by discriminate. reflexivity. }
  unfold state_of, afterRender, layoutEffect, inputValue, isInputControlled.
  rewrite Hdeps, Hfocused. split.
  - intros Hnone. rewrite Hnone.
    rewrite bool_decide_eq_false_2 by (intros Hne; apply Hne; reflexivity).
    run_handler. split; reflexivity.
  - intros v Hsome. rewrite Hsome.
    rewrite bool_decide_eq_true_2 by discriminate.
    run_handler. repeat split.
Qed.

(** ** The attributes of the text entry *)

(** C8: in every rendered state the text entry has [role] [combobox] and
    [aria-haspopup] [listbox]; its [aria-expanded] is the focused state; its
    [aria-activedescendant] is the identifier of the active option and is
    absent when there is none; its [aria-controls] is the identifier of the
    list box, a space, and the identifier of the list of selected chips. *)
Theorem input_accessibility (p : Props) (s : State) :
  attr_lookup "role" (renderInput p s) = Some (AStr "combobox")
  /\ attr_lookup "aria-haspopup" (renderInput p s) = Some (AStr "listbox")
  /\ attr_lookup "aria-expanded" (renderInput p s) = Some (ABool (isFocused s))
  /\ attr_lookup "aria-activedescendant" (renderInput p s)
     = match activeOption (listBox s) with
       | Some o => Some (AStr (id o))
       | None => None
       end
  /\ attr_lookup "aria-controls" (renderInput p s)
     = Some (AStr (String.append (listBoxId (listBox s))
                     (String.append " " (selectedListId s)))).
Proof.
  unfold renderInput.
  destruct (name p), (activeOption (listBox s)), (error p);
    repeat split; reflexivity.
Qed.

(** ** A disabled widget *)

(** C10: while the [disabled] prop is true, a click inside the widget, on a
    delete button or elsewhere, does nothing: it does not call [onFocus] and
    changes no state.  So over every sequence of clicks a blurred widget
    stays blurred and [onFocus] is never called.  (A click reaches the
    [onClick] of the container; the input is rendered with [disabled], and
    a disabled input takes no focus from a click.) *)
Theorem disabled_click_stays_blurred (p : Props) (s : State) :
  disabled p = true ->
  (forall onDeleteButton,
     containerOnClick p s onDeleteButton s = (tt, s, []))
  /\ (forall evs,
        Forall (fun ev => isContainerClick ev = true) evs ->
        run p evs s = (s, [])
        /\ (isFocused s = false -> isFocused (run p evs s).1 = false)
        /\ timesFired isOnFocus (run p evs s).2 = 0).
Proof.
  intros Hdis.
  assert (Hclick : forall onDeleteButton,
             containerOnClick p s onDeleteButton s = (tt, s, [])).
  { intros onDeleteButton. unfold containerOnClick. rewrite Hdis.
    rewrite andb_false_r. reflexivity. }
  split; [exact Hclick | ].
  intros evs Hevs.
  assert (Hrun : run p evs s = (s, [])).
  { induction Hevs as [ | ev evs Hev _ IH]; [reflexivity | ].
    destruct ev; try discriminate Hev. simpl.
    rewrite (step_unchanged p s (ContainerClick onDeleteButton) [])
      by apply Hclick.
    rewrite IH. reflexivity. }
  rewrite Hrun. split; [reflexivity | split; [ | reflexivity]].
  intros Hblurred. exact Hblurred.
Qed.

(** * Further properties of the component *)

(** ** Deleting and toggling *)

Lemma changeSelected_calls (b b' : bool) (c : Call ComboBoxItem)
  (l : list ComboBoxItem) :
  (forall l', c <> CallOnChangeSelected l') ->
  changeSelected (fired b c ++ fired b' (CallOnChangeSelected l))
  = if b' then Some l else None.
Proof.
  intros Hc. destruct b, b'; simpl; try reflexivity;
    destruct c; try reflexivity; exfalso; apply (Hc selected); reflexivity.
Qed.

Lemma filter_twice (l : list ComboBoxItem) (x : ComboBoxItem) :
  filter (fun e => ~ sameLabelValue e x) (filter (fun e => ~ sameLabelValue e x) l)
  = filter (fun e => ~ sameLabelValue e x) l.
Proof. apply list_filter_filter_l. intros e He. exact He. Qed.

Lemma filter_swap (l : list ComboBoxItem) (x y : ComboBoxItem) :
  filter (fun e => ~ sameLabelValue e y) (filter (fun e => ~ sameLabelValue e x) l)
  = filter (fun e => ~ sameLabelValue e x) (filter (fun e => ~ sameLabelValue e y) l).
Proof.
  rewrite !list_filter_filter. apply list_filter_iff. intros e. tauto.
Qed.

(** X1: deleting an item that no entry of [selectedItems] matches is not
    refused: [handleDelete] still calls [onDelete] with the item and then
    [onChangeSelected], with the entries of [selectedItems] unchanged. *)
Theorem handleDelete_absent_item (p : Props) (x : ComboBoxItem) (s : State) :
  (forall e, e ∈ selectedItems p -> ~ sameLabelValue e x) ->
  handleDelete p x s
  = (tt, s,
     fired (onDelete p) (CallOnDelete x)
     ++ fired (onChangeSelected p) (CallOnChangeSelected (selectedItems p))).
Proof.
  intros Hnone. rewrite handleDelete_run, (filter_keeps_all _ _ Hnone).
  reflexivity.
Qed.

(** X2: deleting is idempotent and independent of the order: when the host
    stores the array it is given, deleting [x] again passes the same array,
    and deleting [x] then [y] passes the array that deleting [y] then [x]
    does. *)
Theorem handleDelete_composes (p : Props) (x y : ComboBoxItem) (s : State) :
  onChangeSelected p = true ->
  exists lx ly lxy,
    changeSelected (calls_of (handleDelete p x) s) = Some lx
    /\ changeSelected (calls_of (handleDelete p y) s) = Some ly
    /\ changeSelected (calls_of (handleDelete (withSelectedItems p lx) x) s)
       = Some lx
    /\ changeSelected (calls_of (handleDelete (withSelectedItems p lx) y) s)
       = Some lxy
    /\ changeSelected (calls_of (handleDelete (withSelectedItems p ly) x) s)
       = Some lxy.
Proof.
  intros Hcb.
  exists (filter (fun e => ~ sameLabelValue e x) (selectedItems p)),
    (filter (fun e => ~ sameLabelValue e y) (selectedItems p)),
    (filter (fun e => ~ sameLabelValue e y)
       (filter (fun e => ~ sameLabelValue e x) (selectedItems p))).
  unfold calls_of. rewrite !handleDelete_run. simpl. rewrite Hcb.
  rewrite !changeSelected_fired, filter_twice, filter_swap.
  repeat split; reflexivity.
Qed.

(** X3: toggling twice an option that is selected and may be deleted: the
    first toggle passes [selectedItems] without every entry that has its
    label and value, and the second, against that array, appends the
    option.  The array after the two toggles is the other entries, in their
    order, followed by the toggled object, which is then last and occurs
    once. *)
Theorem toggle_selected_twice_moves_last (p : Props) (o : ComboBoxItem)
  (s : State) (i : nat) (matched : ComboBoxItem) :
  onChangeSelected p = true ->
  firstMatch (selectedItems p) o i matched ->
  deletable matched <> Some false ->
  exists once,
    changeSelected (calls_of (handleSelect p o) s) = Some once
    /\ once = filter (fun e => ~ sameLabelValue e o) (selectedItems p)
    /\ changeSelected (calls_of (handleSelect (withSelectedItems p once) o) s)
       = Some (once ++ [o]).
Proof.
  intros Hcb Hfirst Hdel.
  exists (filter (fun e => ~ sameLabelValue e o) (selectedItems p)).
  unfold calls_of. split; [ | split; [reflexivity | ]].
  - rewrite (handleSelect_matched p o matched s).
    + simpl. rewrite Hcb. apply changeSelected_fired.
    + apply matchedSelectedItem_first. exists i. exact Hfirst.
    + exact Hdel.
  - rewrite handleSelect_unmatched.
    + simpl. rewrite Hcb. apply changeSelected_fired.
    + apply matchedSelectedItem_none. simpl. intros e He.
      apply list_elem_of_filter in He as [Hn _]. exact Hn.
Qed.

(** X4: whenever the toggle calls [onChangeSelected], the array it passes
    differs from [selectedItems] in the entries with the label and value of
    the candidate only (the other entries are there, in their order), and it
    never has the length of [selectedItems]: it is one longer (a selection)
    or shorter (a deletion). *)
Theorem handleSelect_touches_candidate_only (p : Props) (c : ComboBoxItem)
  (s : State) (l : list ComboBoxItem) :
  changeSelected (calls_of (handleSelect p c) s) = Some l ->
  filter (fun e => ~ sameLabelValue e c) l
  = filter (fun e => ~ sameLabelValue e c) (selectedItems p)
  /\ (length l = S (length (selectedItems p))
      \/ length l < length (selectedItems p)).
Proof.
  unfold calls_of.
  destruct (matchedSelectedItem p c) as [matched | ] eqn:Hm.
  - destruct (decide (deletable matched <> Some false)) as [Hdel | Hlocked].
    + rewrite (handleSelect_matched p c matched s Hm Hdel). simpl.
      rewrite changeSelected_calls by discriminate.
      destruct (onChangeSelected p); [ | discriminate].
      intros [= <-]. split; [apply filter_twice | right].
      apply matchedSelectedItem_first in Hm as (i & Hi & Hsame & _).
      apply (length_filter_lt _ _ matched).
      * apply list_elem_of_lookup. exists i. exact Hi.
      * intros Hn. apply Hn. exact Hsame.
    + unfold handleSelect. rewrite Hm.
      rewrite bool_decide_eq_false_2 by exact Hlocked. discriminate.
  - rewrite (handleSelect_unmatched p c s Hm). simpl.
    rewrite changeSelected_calls by discriminate.
    destruct (onChangeSelected p); [ | discriminate].
    intros [= <-]. split.
    + rewrite filter_app, filter_cons_False, filter_nil, app_nil_r;
        [reflexivity | ].
      intros Hn. apply Hn. split; reflexivity.
    + left. rewrite length_app. simpl. lia.
Qed.

(** ** What an event does to the focus, the text and the composition flag *)

(** The keys that blur the widget: Escape ([Esc] in older browsers) and
    Tab. *)
Definition isBlurKey (key : string) : bool :=
  bool_decide (key = "Escape" \/ key = "Esc") || bool_decide (key = "Tab").

(** The event focuses the widget: a click in a blurred and enabled widget,
    not on a delete button, or the focus of the input of a blurred one. *)
Definition focuses (p : Props) (s : State) (ev : Event) : bool :=
  negb (isFocused s)
  && match ev with
     | ContainerClick onDeleteButton => negb onDeleteButton && negb (disabled p)
     | InputFocus => true
     | _ => false
     end.

(** The event blurs the widget: in a focused widget, a click outside or,
    while no composition is in progress, one of the keys that blur. *)
Definition blurs (s : State) (ev : Event) : bool :=
  isFocused s
  && match ev with
     | KeyDown key | InputKeyDown key => negb (isComposing s) && isBlurKey key
     | OuterClick => true
     | _ => false
     end.

Definition composingAfter (s : State) (ev : Event) : bool :=
  match ev with
  | CompositionStart => true
  | CompositionEnd => false
  | _ => isComposing s
  end.

(** The text of the widget after the handlers of the event. *)
Definition textAfter (p : Props) (s : State) (ev : Event) : string :=
  match ev with
  | InputChange text =>
      if isInputControlled p then uncontrolledInputValue s else text
  | _ => uncontrolledInputValue s
  end.

Definition isDomFocusInput (c : Call ComboBoxItem) : bool :=
  match c with
  | DomFocusInput => true
  | _ => false
  end.

Lemma timesFired_cons (kind : Call ComboBoxItem -> bool)
  (c : Call ComboBoxItem) (calls : list (Call ComboBoxItem)) :
  timesFired kind (c :: calls)
  = (if kind c then 1 else 0) + timesFired kind calls.
Proof. unfold timesFired. simpl. destruct (kind c); reflexivity. Qed.

Lemma commit_frame (p : Props) (c : Commit) (s : State) :
  exists calls,
    commit p c s = (tt, s, calls)
    /\ timesFired isOnBlur calls = 0
    /\ timesFired isOnFocus calls = 0.
Proof.
  destruct c as [text | selected]; simpl.
  - rewrite when_call_run. eexists. split; [reflexivity | ].
    rewrite !timesFired_fired. simpl. rewrite !andb_false_r.
    split; reflexivity.
  - apply handleSelect_frame.
Qed.

Ltac list_box_frame p s key calls Hb Hf :=
  match goal with
  | |- context [handleListBoxKeyDown p s key ?s1] =>
      let Hrun := fresh "Hrun" in
      destruct (handleListBoxKeyDown_frame p s key s1)
        as (calls & Hrun & Hb & Hf);
      rewrite Hrun; clear Hrun
  end;
  unfold state_of, setListBox; cbn -[timesFired].

Lemma handleKeyDown_summary (p : Props) (s : State) (key : string) :
  exists s1 calls,
    handleKeyDown p s key s = (tt, s1, calls)
    /\ isFocused s1
       = isFocused s && negb (negb (isComposing s) && isBlurKey key)
    /\ isComposing s1 = isComposing s
    /\ uncontrolledInputValue s1 = uncontrolledInputValue s
    /\ selectedListId s1 = selectedListId s
    /\ timesFired isOnFocus calls = 0
    /\ timesFired isOnBlur calls
       = (if negb (isComposing s) && isBlurKey key && isFocused s && onBlur p
          then 1 else 0).
Proof.
  unfold handleKeyDown, isBlurKey, blur.
  destruct (isComposing s) eqn:Hcomp.
  - exists s, []. simpl. rewrite andb_true_r. repeat split. exact Hcomp.
  - destruct (bool_decide (key = "Escape" \/ key = "Esc"));
      [ | destruct (bool_decide (key = "Tab"));
          [ | destruct (bool_decide (key = "Left" \/ key = "ArrowLeft"));
              [ | destruct (bool_decide (key = "Right" \/ key = "ArrowRight"))]]];
      destruct (isFocused s) eqn:Hfoc, (onBlur p);
      run_handler; list_box_frame p s key calls Hb Hf;
      eexists; eexists; (split; [reflexivity | ]);
      cbn -[timesFired];
      rewrite ?timesFired_cons, ?Hb, ?Hf; simpl;
      repeat split; assumption.
Qed.

Lemma handle_summary (p : Props) (s : State) (ev : Event) :
  exists s1 calls,
    handle p s ev s = (tt, s1, calls)
    /\ isFocused s1 = (isFocused s || focuses p s ev) && negb (blurs s ev)
    /\ isComposing s1 = composingAfter s ev
    /\ uncontrolledInputValue s1 = textAfter p s ev
    /\ selectedListId s1 = selectedListId s
    /\ timesFired isOnFocus calls = (if focuses p s ev && onFocus p then 1 else 0)
    /\ timesFired isOnBlur calls = (if blurs s ev && onBlur p then 1 else 0).
Proof.
  destruct ev as [onDeleteButton | key | key | text | | | | | x | c];
    unfold focuses, blurs, composingAfter, textAfter; simpl handle.
  - unfold containerOnClick, focus.
    destruct onDeleteButton, (disabled p), (isFocused s) eqn:Hfoc, (onFocus p);
      run_handler; eexists; eexists; repeat split; assumption.
  - destruct (handleKeyDown_summary p s key)
      as (s1 & calls & Hrun & Hfoc & Hcomp & Htext & Hid & Hf & Hb).
    exists s1, calls. rewrite Hfoc, Hf, Hb.
    split; [exact Hrun | ].
    destruct (isFocused s), (isComposing s), (isBlurKey key), (onBlur p);
      repeat split; assumption.
  - destruct (handleKeyDown_summary p s key)
      as (s1 & calls & Hrun & Hfoc & Hcomp & Htext & Hid & Hf & Hb).
    rewrite bind_run. unfold handleInputKeyDown.
    destruct (bool_decide _); simpl; rewrite Hrun;
      eexists; eexists; (split; [reflexivity | ]);
      cbn -[timesFired]; rewrite ?timesFired_cons, Hfoc, Hf, Hb;
      destruct (isFocused s), (isComposing s), (isBlurKey key), (onBlur p);
      repeat split; assumption.
  - unfold inputOnChange.
    destruct (onChange p), (onChangeInput p), (isInputControlled p),
      (isFocused s) eqn:Hfoc;
      run_handler; eexists; eexists; repeat split; assumption.
  - unfold inputOnFocus, focus.
    destruct (isFocused s) eqn:Hfoc, (onFocus p);
      run_handler; eexists; eexists; repeat split; assumption.
  - unfold onCompositionStart. destruct (isFocused s) eqn:Hfoc;
      run_handler; eexists; eexists; repeat split; assumption.
  - unfold onCompositionEnd. destruct (isFocused s) eqn:Hfoc;
      run_handler; eexists; eexists; repeat split; assumption.
  - unfold blur. destruct (isFocused s) eqn:Hfoc, (onBlur p);
      run_handler; eexists; eexists; repeat split; assumption.
  - rewrite handleDelete_run. eexists; eexists. split; [reflexivity | ].
    rewrite !timesFired_app, !timesFired_fired. simpl.
    rewrite !andb_false_r. destruct (isFocused s); repeat split.
  - destruct (commit_frame p c s) as (calls & Hrun & Hb & Hf).
    exists s, calls. rewrite Hb, Hf.
    split; [exact Hrun | ]. destruct (isFocused s); repeat split.
Qed.

Lemma focuses_blurs_exclusive (p : Props) (s : State) (ev : Event) :
  (focuses p s ev = true -> isFocused s = false /\ blurs s ev = false)
  /\ (blurs s ev = true -> isFocused s = true /\ focuses p s ev = false).
Proof.
  unfold focuses, blurs. destruct (isFocused s); simpl; split; intros Hx;
    try discriminate Hx; split; reflexivity.
Qed.

(** The event with the commit of the next render: the layout effect runs
    when the event changed the focus, and then clears the text of a widget
    that holds its text. *)
Lemma step_summary (p : Props) (s : State) (ev : Event) :
  isFocused (step p s ev).1 = (isFocused s || focuses p s ev) && negb (blurs s ev)
  /\ isComposing (step p s ev).1 = composingAfter s ev
  /\ uncontrolledInputValue (step p s ev).1
     = (if (focuses p s ev || blurs s ev) && negb (isInputControlled p)
        then "" else textAfter p s ev)
  /\ selectedListId (step p s ev).1 = selectedListId s
  /\ timesFired isOnFocus (step p s ev).2
     = (if focuses p s ev && onFocus p then 1 else 0)
  /\ timesFired isOnBlur (step p s ev).2
     = (if blurs s ev && onBlur p then 1 else 0)
  /\ timesFired isDomFocusInput (step p s ev).2
     = timesFired isDomFocusInput (calls_of (handle p s ev) s)
       + (if focuses p s ev then 1 else 0).
Proof.
  destruct (handle_summary p s ev)
    as (s1 & calls & Hrun & Hfoc & Hcomp & Htext & Hid & Hf & Hb).
  destruct (focuses_blurs_exclusive p s ev) as [Hfocuses Hblurs].
  unfold step, calls_of, afterRender, depsChanged, layoutEffect.
  rewrite Hrun, Hfoc.
  rewrite (bool_decide_eq_true_2 (isInputControlled p = isInputControlled p))
    by reflexivity.
  destruct (focuses p s ev) eqn:Efocuses.
  - destruct Hfocuses as [Hblurred Hnb]; [reflexivity | ].
    rewrite Hblurred, Hnb in *. simpl.
    destruct (isInputControlled p), (onFocus p); run_handler;
      rewrite ?timesFired_app, ?Hf, ?Hb; simpl;
      repeat split; try assumption; lia.
  - destruct (blurs s ev) eqn:Eblurs.
    + destruct Hblurs as [Hfocused _]; [reflexivity | ].
      rewrite Hfocused in *. simpl.
      destruct (isInputControlled p), (onBlur p); run_handler;
        rewrite ?timesFired_app, ?Hf, ?Hb; simpl;
        repeat split; try assumption; lia.
    + simpl negb in *. rewrite ?orb_false_r, ?andb_true_r in *.
      rewrite bool_decide_eq_true_2 by reflexivity. simpl.
      rewrite app_nil_r, Hf, Hb. repeat split; try assumption; lia.
Qed.

(** ** The keyboard *)

(** X5: the key handler writes neither the text of the widget nor the
    composition flag, whatever the key and whatever the list box does with
    it.  In a focused widget it never calls [onFocus], and in a blurred one
    it never calls [onBlur].  (In a blurred widget the call of [focus] on
    the input, [DomFocusInput], makes the browser send the input its focus
    event, the event [InputFocus], which focuses the widget and calls
    [onFocus]: nothing is said here of [onFocus] in a blurred widget.) *)
Theorem key_handler_frame (p : Props) (s : State) (key : string) :
  uncontrolledInputValue (state_of (handleKeyDown p s key) s)
  = uncontrolledInputValue s
  /\ isComposing (state_of (handleKeyDown p s key) s) = isComposing s
  /\ (isFocused s = true ->
      timesFired isOnFocus (calls_of (handleKeyDown p s key) s) = 0)
  /\ (isFocused s = false ->
      timesFired isOnBlur (calls_of (handleKeyDown p s key) s) = 0).
Proof.
  destruct (handleKeyDown_summary p s key)
    as (s1 & calls & Hrun & _ & Hcomp & Htext & _ & Hf & Hb).
  unfold state_of, calls_of. rewrite Hrun. simpl.
  split; [exact Htext | split; [exact Hcomp | split]].
  - intros _. exact Hf.
  - intros Hblurred. rewrite Hb, Hblurred, andb_false_r. reflexivity.
Qed.

(** X6: a key press calls [onBlur] at most once, and it does exactly when
    the key is Escape, Esc or Tab, the widget is focused, no composition is
    in progress and the host passed the callback.  A focused widget is
    blurred by these three keys, outside of a composition, and stays focused
    under every other key. *)
Theorem key_press_blurs_iff (p : Props) (s : State) (key : string) :
  timesFired isOnBlur (calls_of (handleKeyDown p s key) s)
  = (if negb (isComposing s) && isBlurKey key && isFocused s && onBlur p
     then 1 else 0)
  /\ (isFocused s = true ->
      isFocused (state_of (handleKeyDown p s key) s)
      = negb (negb (isComposing s) && isBlurKey key)).
Proof.
  destruct (handleKeyDown_summary p s key)
    as (s1 & calls & Hrun & Hfoc & _ & _ & _ & _ & Hb).
  unfold state_of, calls_of. rewrite Hrun. simpl.
  split; [exact Hb | ]. intros Hfocused. rewrite Hfoc, Hfocused. reflexivity.
Qed.

(** The calls of the toggle, and so of the list box, do not depend on the
    state they are made in. *)
Lemma handleSelect_calls_stateless (p : Props) (selected : ComboBoxItem)
  (s1 s2 : State) :
  calls_of (handleSelect p selected) s1 = calls_of (handleSelect p selected) s2.
Proof.
  unfold calls_of, handleSelect.
  destruct (matchedSelectedItem p selected) as [matched | ].
  - destruct (bool_decide _); [ | reflexivity].
    rewrite !handleDelete_run. reflexivity.
  - rewrite !bind_run, !when_call_run. reflexivity.
Qed.

Lemma commits_calls_stateless (p : Props) (cs : list Commit) (s1 s2 : State) :
  calls_of (commits p cs) s1 = calls_of (commits p cs) s2.
Proof.
  unfold calls_of. induction cs as [ | c cs IH]; [reflexivity | ].
  simpl. rewrite !bind_run.
  destruct (commit_frame p c s1) as (c1 & Hrun1 & _).
  destruct (commit_frame p c s2) as (c2 & Hrun2 & _).
  destruct (commits_frame p cs s1) as (d1 & Hruns1 & _).
  destruct (commits_frame p cs s2) as (d2 & Hruns2 & _).
  rewrite Hruns1, Hruns2 in IH. simpl in IH.
  rewrite Hrun1, Hrun2, Hruns1, Hruns2. simpl. f_equal; [ | exact IH].
  destruct c as [text | selected]; simpl in Hrun1, Hrun2.
  - rewrite when_call_run in Hrun1, Hrun2. congruence.
  - pose proof (handleSelect_calls_stateless p selected s1 s2) as Hsel.
    unfold calls_of in Hsel. rewrite Hrun1, Hrun2 in Hsel. exact Hsel.
Qed.

Lemma handleListBoxKeyDown_calls_stateless (p : Props) (s : State)
  (key : string) (s1 s2 : State) :
  calls_of (handleListBoxKeyDown p s key) s1
  = calls_of (handleListBoxKeyDown p s key) s2.
Proof.
  unfold calls_of, handleListBoxKeyDown. rewrite !bind_run.
  pose proof (commits_calls_stateless p (listBoxKeyDown p s key).2
                (state_of (setListBox (listBoxKeyDown p s key).1) s1)
                (state_of (setListBox (listBoxKeyDown p s key).1) s2)) as Hcs.
  unfold calls_of, state_of in Hcs. simpl in *.
  destruct (commits p _ _) as [[u1 t1] d1].
  destruct (commits p _ _) as [[u2 t2] d2]. simpl in *. exact Hcs.
Qed.

(** X7: on Tab, while no composition is in progress, a focused widget gives
    the input the focus first and calls [onBlur] after it, with no call of
    [stopPropagation] of its own, so that the focus leaves the widget by the
    tab order of the page; the calls that follow are those of the key
    handler of the list box.  In a blurred widget the key handler does
    nothing of its own: it is the key handler of the list box. *)
Theorem tab_focuses_input_before_blur (p : Props) (s : State) :
  isComposing s = false ->
  (isFocused s = true ->
   calls_of (handleKeyDown p s "Tab") s
   = DomFocusInput :: fired (onBlur p) CallOnBlur
     ++ calls_of (handleListBoxKeyDown p s "Tab") s)
  /\ (isFocused s = false ->
      handleKeyDown p s "Tab" s = handleListBoxKeyDown p s "Tab" s).
Proof.
  intros Hcomp. unfold handleKeyDown, blur. rewrite Hcomp.
  rewrite bool_decide_eq_false_2
    by (intros [Hk | Hk]; discriminate Hk).
  rewrite bool_decide_eq_true_2 by reflexivity.
  split; intros Hfoc; rewrite Hfoc; simpl negb; cbv iota.
  - unfold calls_of at 1. destruct (onBlur p); run_handler;
      match goal with
      | |- context [handleListBoxKeyDown p s "Tab" ?s1] =>
          pose proof (handleListBoxKeyDown_calls_stateless p s "Tab" s1 s) as Hcalls;
          unfold calls_of in Hcalls;
          destruct (handleListBoxKeyDown p s "Tab" s1) as [[u1 t1] d1]
      end;
      simpl in *; rewrite Hcalls; reflexivity.
  - run_handler. destruct (handleListBoxKeyDown p s "Tab" s) as [[[] t1] d1].
    reflexivity.
Qed.

(** ** Invariants of the event loop *)

Definition isCompositionEvent (ev : Event) : bool :=
  match ev with
  | CompositionStart | CompositionEnd => true
  | _ => false
  end.

Lemma run_cons (p : Props) (ev : Event) (evs : list Event) (s : State) :
  run p (ev :: evs) s
  = ((run p evs (step p s ev).1).1,
     (step p s ev).2 ++ (run p evs (step p s ev).1).2).
Proof.
  simpl. destruct (step p s ev) as [s1 c1]. simpl.
  destruct (run p evs s1) as [s2 c2]. reflexivity.
Qed.

(** X8: the composition flag is written by the two composition events of the
    input and by nothing else: over every sequence of other events (keys,
    clicks, focus, typing, deletions, commits of the list box), with the
    renders in between, it keeps its value. *)
Theorem composing_flag_kept (p : Props) (evs : list Event) (s : State) :
  Forall (fun ev => isCompositionEvent ev = false) evs ->
  isComposing (run p evs s).1 = isComposing s.
Proof.
  intros Hevs. revert s. induction Hevs as [ | ev evs Hev _ IH]; intros s.
  - reflexivity.
  - rewrite run_cons. simpl. rewrite IH.
    destruct (step_summary p s ev) as (_ & -> & _).
    destruct ev; try discriminate Hev; reflexivity.
Qed.

(** X9: when the text is host-controlled (the prop [inputValue] is given),
    no event and no render ever writes the text the widget holds, and the
    value the input shows is the value of the host throughout. *)
Theorem controlled_text_never_written (p : Props) (v : string)
  (evs : list Event) (s : State) :
  controlledInputValue p = Some v ->
  uncontrolledInputValue (run p evs s).1 = uncontrolledInputValue s
  /\ inputValue p (run p evs s).1 = v.
Proof.
  intros Hv. split; [ | unfold inputValue; rewrite Hv; reflexivity].
  assert (Hctl : isInputControlled p = true).
  { unfold isInputControlled. rewrite Hv. reflexivity. }
  revert s. induction evs as [ | ev evs IH]; intros s; [reflexivity | ].
  rewrite run_cons. simpl. rewrite IH.
  destruct (step_summary p s ev) as (_ & _ & -> & _).
  rewrite Hctl, andb_false_r. unfold textAfter. rewrite Hctl.
  destruct ev; reflexivity.
Qed.

(** X10: the calls of [onFocus] and [onBlur] follow the focus of the widget.
    Over every sequence of events, with both callbacks passed, the number of
    calls of [onFocus] and the number of calls of [onBlur] differ by the
    change of the focus: from a blurred widget, [onFocus] is ahead by one if
    the widget ends up focused and level if not.  As this holds of every
    prefix of the sequence, the two callbacks alternate. *)
Theorem focus_blur_balance (p : Props) (evs : list Event) (s : State) :
  onFocus p = true ->
  onBlur p = true ->
  timesFired isOnFocus (run p evs s).2 + (if isFocused s then 1 else 0)
  = timesFired isOnBlur (run p evs s).2
    + (if isFocused (run p evs s).1 then 1 else 0).
Proof.
  intros Hf Hb. revert s. induction evs as [ | ev evs IH]; intros s.
  - reflexivity.
  - rewrite run_cons. simpl. rewrite !timesFired_app.
    specialize (IH (step p s ev).1).
    destruct (step_summary p s ev) as (Hfoc & _ & _ & _ & Hnf & Hnb & _).
    destruct (focuses_blurs_exclusive p s ev) as [Hfocuses Hblurs].
    rewrite Hfoc in IH. rewrite Hnf, Hnb, Hf, Hb, !andb_true_r.
    destruct (focuses p s ev).
    + destruct Hfocuses as [E1 E2]; [reflexivity | ].
      rewrite E1, E2 in *. simpl in *. lia.
    + destruct (blurs s ev).
      * destruct Hblurs as [E1 _]; [reflexivity | ].
        rewrite E1 in *. simpl in *. lia.
      * simpl in *. rewrite orb_false_r, andb_true_r in IH. lia.
Qed.

(** X11: a click outside of the widget blurs a focused widget and does
    nothing, no call and no write, in a blurred one; so a second click
    outside changes nothing, and [onBlur] is called once for the two. *)
Theorem outer_click_idempotent (p : Props) (s : State) :
  (isFocused s = false -> step p s OuterClick = (s, []))
  /\ isFocused (step p s OuterClick).1 = false
  /\ run p [OuterClick; OuterClick] s = run p [OuterClick] s.
Proof.
  assert (Hnoop : forall s0, isFocused s0 = false ->
                             step p s0 OuterClick = (s0, [])).
  { intros s0 Hfoc. apply step_unchanged. simpl. unfold blur.
    rewrite Hfoc. reflexivity. }
  assert (Hblurred : isFocused (step p s OuterClick).1 = false).
  { destruct (step_summary p s OuterClick) as (-> & _).
    unfold focuses, blurs. destruct (isFocused s); reflexivity. }
  split; [apply Hnoop | split; [exact Hblurred | ]].
  rewrite !run_cons. simpl. rewrite (Hnoop _ Hblurred). reflexivity.
Qed.

(** X12: the click handler of the container focuses the widget exactly when
    the widget is blurred and enabled and the click is not on a delete
    button: the handler then calls [onFocus], if passed, and nothing else.
    For a click on a delete button, in a focused widget or in a disabled
    one, this handler makes no call and writes no state (what the chip or
    the option under the click does is the matter of its own handler).  A
    click that focuses the widget is followed by a render that gives the
    input the focus. *)
Theorem click_focuses_iff (p : Props) (s : State) (onDeleteButton : bool) :
  isFocused (state_of (containerOnClick p s onDeleteButton) s)
  = isFocused s || (negb onDeleteButton && negb (disabled p))
  /\ calls_of (containerOnClick p s onDeleteButton) s
     = fired (negb (isFocused s) && negb onDeleteButton && negb (disabled p)
              && onFocus p)
         CallOnFocus
  /\ (onDeleteButton || isFocused s || disabled p = true ->
      containerOnClick p s onDeleteButton s = (tt, s, []))
  /\ (isFocused s = false ->
      disabled p = false ->
      isFocused (step p s (ContainerClick false)).1 = true
      /\ (step p s (ContainerClick false)).2
         = fired (onFocus p) CallOnFocus ++ [DomFocusInput]).
Proof.
  unfold state_of, calls_of, step, afterRender, depsChanged, layoutEffect.
  simpl handle. unfold containerOnClick, focus.
  split; [ | split; [ | split]].
  - destruct (isFocused s) eqn:Efoc, onDeleteButton, (disabled p), (onFocus p);
      run_handler; try reflexivity; exact Efoc.
  - destruct (isFocused s), onDeleteButton, (disabled p), (onFocus p);
      run_handler; reflexivity.
  - destruct (isFocused s), onDeleteButton, (disabled p);
      simpl; intros Hx; try discriminate Hx; reflexivity.
  - intros Hblurred Henabled. rewrite Hblurred, Henabled.
    destruct (isInputControlled p), (onFocus p); run_handler;
      rewrite ?Hblurred; split; reflexivity.
Qed.

(** X13: the focus of the input focuses the widget whatever the props, so
    also when [disabled] is true (the handler has no guard of its own): the
    widget is focused after it, the focus of the deletion buttons is reset,
    and [onFocus] is called once if the widget was blurred and not at all if
    it was focused. *)
Theorem input_focus_focuses (p : Props) (s : State) :
  isFocused (step p s InputFocus).1 = true
  /\ focusControl (step p s InputFocus).1
     = resetDeletionButtonFocus (focusControl s)
  /\ timesFired isOnFocus (step p s InputFocus).2
     = (if negb (isFocused s) && onFocus p then 1 else 0)
  /\ timesFired isOnBlur (step p s InputFocus).2 = 0.
Proof.
  destruct (step_summary p s InputFocus) as (Hfoc & _ & _ & _ & Hnf & Hnb & _).
  rewrite Hfoc, Hnf, Hnb. unfold focuses, blurs.
  split; [destruct (isFocused s); reflexivity | ].
  split; [ | rewrite !andb_true_r, andb_false_r; split; reflexivity].
  destruct (step_frame p s InputFocus) as (_ & -> & _).
  unfold state_of. simpl. unfold inputOnFocus, focus.
  destruct (isFocused s), (onFocus p); run_handler; reflexivity.
Qed.

(** ** Typing, and the renders of the host *)


(** X15: a render in which the host passes a new [selectedItems] array runs
    the layout effect even if nothing else changed: a widget that holds its
    text loses the text typed so far, and a focused widget gives the input
    the focus again.  A render with the same array, focus and kind of text
    runs nothing. *)
Theorem new_array_clears_text (p0 : Props) (s0 : State) (p1 : Props)
  (s1 s2 : State) :
  controlledInputValue p1 = None ->
  (uncontrolledInputValue (state_of (afterRender false p0 s0 p1 s1) s2) = ""
   /\ calls_of (afterRender false p0 s0 p1 s1) s2
      = fired (isFocused s1) DomFocusInput)
  /\ (isFocused s0 = isFocused s1 ->
      controlledInputValue p0 = None ->
      afterRender true p0 s0 p1 s1 s2 = (tt, s2, [])).
Proof.
  intros Hv.
  assert (Hctl : isInputControlled p1 = false).
  { unfold isInputControlled. rewrite Hv.
    apply bool_decide_eq_false_2. intros Hne. apply Hne. reflexivity. }
  split.
  - unfold state_of, calls_of, afterRender, depsChanged, layoutEffect.
    rewrite orb_true_r, Hctl.
    destruct (isFocused s1); run_handler; split; reflexivity.
  - intros Hfoc Hv0. unfold afterRender, depsChanged.
    assert (Hctl0 : isInputControlled p0 = false).
    { unfold isInputControlled. rewrite Hv0.
      apply bool_decide_eq_false_2. intros Hne. apply Hne. reflexivity. }
    rewrite Hfoc, Hctl, Hctl0, !bool_decide_eq_true_2 by reflexivity.
    reflexivity.
Qed.

(** ** The other attributes of the text entry *)

(** X16: no attribute of the text entry is rendered twice.  The input shows
    the value of the host when the text is controlled and the text of the
    widget otherwise; [aria-invalid] is rendered with [true] under [error]
    and is absent without it (it is never [false]); [name] is absent when
    the host gives none; [disabled] and [aria-disabled] are the prop. *)
Theorem input_attributes (p : Props) (s : State) :
  NoDup (fst <$> renderInput p s)
  /\ attr_lookup "value" (renderInput p s) = Some (AStr (inputValue p s))
  /\ attr_lookup "aria-invalid" (renderInput p s)
     = (if error p then Some (ABool true) else None)
  /\ attr_lookup "name" (renderInput p s) = AStr <$> name p
  /\ attr_lookup "disabled" (renderInput p s) = Some (ABool (disabled p))
  /\ attr_lookup "aria-disabled" (renderInput p s) = Some (ABool (disabled p)).
Proof.
  unfold renderInput.
  destruct (name p), (activeOption (listBox s)), (error p); simpl;
    (split; [ | repeat split; reflexivity]);
    repeat (apply NoDup_cons; split;
            [intros Hin; repeat (apply elem_of_cons in Hin as [Hin | Hin];
                                 [discriminate Hin | ]);
             apply elem_of_nil in Hin; exact Hin | ]);
    apply NoDup_nil; exact I.
Qed.

End MultiComboBox.

(** * The toggle for an arbitrary strict equality

    The handlers compare the values of two items with [===] and [!==].  On
    a value type whose [===] is the equality of the values, the toggle is
    [handleSelect] above.  JavaScript has one value that is not [===] to
    itself, the number [NaN], and the type of the values is a parameter of
    the component: here the toggle is embedded again with [===] on the
    values as a parameter, [strictEq], of which nothing is assumed. *)
Section StrictEquality.

Context {V : Type} {FocusControl ListBox : Type}.

(** [strictEq a b] is [a === b] on the values of the items. *)
Variable strictEq : V -> V -> bool.

#[local] Existing Instance handler_ret.
#[local] Existing Instance handler_bind.

(** [item.label === selected.label && item.value === selected.value]. *)
Definition strictMatch (item selected : @ComboBoxItem V) : bool :=
  bool_decide (label item = label selected)
  && strictEq (value item) (value selected).

(** [handleDelete], with
    [selected.label !== item.label || selected.value !== item.value] as the
    test of the filter. *)
Definition handleDeleteStrict (p : Props) (item : ComboBoxItem)
  : @Handler V FocusControl ListBox unit :=
  when_ (onDelete p) (call (CallOnDelete item)) ;;
  when_ (onChangeSelected p)
    (call (CallOnChangeSelected
             (List.filter
                (fun selected =>
                   negb (bool_decide (label selected = label item))
                   || negb (strictEq (value selected) (value item)))
                (selectedItems p)))).

(** [handleSelect], with [selectedItems.find(...)] as [List.find]. *)
Definition handleSelectStrict (p : Props) (selected : ComboBoxItem)
  : @Handler V FocusControl ListBox unit :=
  match List.find (fun item => strictMatch item selected) (selectedItems p) with
  | Some matched =>
      if bool_decide (deletable matched <> Some false)
      then handleDeleteStrict p selected
      else skip
  | None =>
      when_ (onSelect p) (call (CallOnSelect selected)) ;;
      when_ (onChangeSelected p)
        (call (CallOnChangeSelected (selectedItems p ++ [selected])))
  end.

Lemma handleDeleteStrict_run (p : Props) (item : ComboBoxItem)
  (s : @State FocusControl ListBox) :
  handleDeleteStrict p item s
  = (tt, s,
     fired (onDelete p) (CallOnDelete item)
     ++ fired (onChangeSelected p)
          (CallOnChangeSelected
             (List.filter (fun e => negb (strictMatch e item))
                (selectedItems p)))).
Proof.
  unfold handleDeleteStrict. rewrite bind_run, !when_call_run.
  do 4 f_equal. apply List.filter_ext. intros e. unfold strictMatch.
  rewrite negb_andb. reflexivity.
Qed.

Lemma find_strictMatch_none (l : list (@ComboBoxItem V)) (o : ComboBoxItem) :
  (forall e, e ∈ l -> strictMatch e o = false) ->
  List.find (fun item => strictMatch item o) l = None.
Proof.
  induction l as [ | a l IH]; intros Hnone; [reflexivity | ].
  simpl. rewrite (Hnone a) by left.
  apply IH. intros e He. apply Hnone. right. exact He.
Qed.

Lemma find_strictMatch_last (l : list (@ComboBoxItem V)) (o : ComboBoxItem) :
  (forall e, e ∈ l -> strictMatch e o = false) ->
  strictMatch o o = true ->
  List.find (fun item => strictMatch item o) (l ++ [o]) = Some o.
Proof.
  induction l as [ | a l IH]; intros Hnone Hself; simpl.
  - rewrite Hself. reflexivity.
  - rewrite (Hnone a) by left.
    apply IH; [ | exact Hself]. intros e He. apply Hnone. right. exact He.
Qed.

Lemma filter_strictMatch_last (l : list (@ComboBoxItem V)) (o : ComboBoxItem) :
  (forall e, e ∈ l -> strictMatch e o = false) ->
  strictMatch o o = true ->
  List.filter (fun e => negb (strictMatch e o)) (l ++ [o]) = l.
Proof.
  induction l as [ | a l IH]; intros Hnone Hself; simpl.
  - rewrite Hself. reflexivity.
  - rewrite (Hnone a) by left. simpl. f_equal.
    apply IH; [ | exact Hself]. intros e He. apply Hnone. right. exact He.
Qed.

(** C4 (as amended): for every array [selectedItems] with no entry that
    matches the option [o] on label and value, with the [deletable] flag of
    [o] unset and with a value of [o] that is [===] to itself (every value
    but [NaN]): toggling [o] passes [onChangeSelected] the array
    [selectedItems] followed by [o], and toggling [o] again against that
    array passes [onChangeSelected] the original [selectedItems], element
    for element.  This holds whatever [===] is on the other values. *)
Theorem toggle_twice_round_trip_strict (p : Props) (o : ComboBoxItem)
  (s s' : @State FocusControl ListBox) :
  onChangeSelected p = true ->
  (forall e, e ∈ selectedItems p -> strictMatch e o = false) ->
  deletable o = None ->
  strictEq (value o) (value o) = true ->
  exists once,
    changeSelected (calls_of (handleSelectStrict p o) s) = Some once
    /\ once = selectedItems p ++ [o]
    /\ changeSelected
         (calls_of (handleSelectStrict (withSelectedItems p once) o) s')
       = Some (selectedItems p).
Proof.
  intros Hcb Hnone Hflag Hrefl.
  assert (Hself : strictMatch o o = true).
  { unfold strictMatch. rewrite bool_decide_eq_true_2 by reflexivity.
    exact Hrefl. }
  exists (selectedItems p ++ [o]). split; [ | split; [reflexivity | ]].
  - unfold calls_of, handleSelectStrict.
    rewrite (find_strictMatch_none _ _ Hnone).
    rewrite bind_run, !when_call_run. simpl. rewrite Hcb.
    apply changeSelected_fired.
  - unfold calls_of, handleSelectStrict, withSelectedItems.
    cbn [selectedItems onSelect onChangeSelected onDelete].
    rewrite (find_strictMatch_last _ _ Hnone Hself), Hflag.
    rewrite bool_decide_eq_true_2 by discriminate.
    rewrite handleDeleteStrict_run.
    cbn [selectedItems onSelect onChangeSelected onDelete snd].
    rewrite Hcb, (filter_strictMatch_last _ _ Hnone Hself).
    apply changeSelected_fired.
Qed.

(** When [strictEq] decides the equality of the values, the toggle is
    [handleSelect]: what is proved of [handleSelect] is proved of the code
    for every type of values that has no [NaN]. *)
Lemma handleSelectStrict_equality `{EqDecision V} (p : Props)
  (selected : ComboBoxItem) (s : @State FocusControl ListBox) :
  (forall a b, strictEq a b = true <-> a = b) ->
  handleSelectStrict p selected s = handleSelect p selected s.
Proof.
  intros Heq.
  assert (Hmatch : forall e x, strictMatch e x = true <-> sameLabelValue e x).
  { intros e x. unfold strictMatch, sameLabelValue.
    rewrite andb_true_iff, bool_decide_eq_true, Heq. reflexivity. }
  assert (Hfilter : forall x l,
             List.filter (fun e => negb (strictMatch e x)) l
             = filter (fun e => ~ sameLabelValue e x) l).
  { intros x l. induction l as [ | a l IH]; [reflexivity | ]. simpl.
    destruct (strictMatch a x) eqn:Ha; simpl.
    - rewrite filter_cons_False; [exact IH | ].
      intros Hn. apply Hn. apply Hmatch. exact Ha.
    - rewrite filter_cons_True; [f_equal; exact IH | ].
      intros Hs. apply Hmatch in Hs. congruence. }
  assert (Hfind : List.find (fun item => strictMatch item selected)
                    (selectedItems p)
                  = matchedSelectedItem p selected).
  { unfold matchedSelectedItem.
    induction (selectedItems p) as [ | a l IH]; [reflexivity | ]. simpl.
    destruct (strictMatch a selected) eqn:Ha.
    - rewrite decide_True; [reflexivity | ].
      apply (Hmatch a selected). exact Ha.
    - rewrite decide_False.
      + rewrite IH. destruct (list_find _ l) as [[i x] | ]; reflexivity.
      + intros Hs. apply (Hmatch a selected) in Hs. congruence. }
  unfold handleSelectStrict, handleSelect. rewrite Hfind.
  destruct (matchedSelectedItem p selected) as [matched | ]; [ | reflexivity].
  destruct (bool_decide _); [ | reflexivity].
  rewrite handleDeleteStrict_run, handleDelete_run, Hfilter. reflexivity.
Qed.

End StrictEquality.


(** * Examples

    The properties at concrete inputs.  The values of the items are strings;
    the two hooks are replaced by stand-ins: the focus of the deletion
    buttons is the index of the focused button, if any, and the list box is
    its active option, which the Enter key commits. *)

Definition exPrev (n : nat) (f : option nat) : option nat :=
  match f with
  | Some i => Some (pred i)
  | None => if bool_decide (n = 0) then None else Some (pred n)
  end.

Definition exNext (n : nat) (f : option nat) : option nat :=
  match f with
  | Some i => if bool_decide (S i < n) then Some (S i) else None
  | None => None
  end.

Definition exReset (f : option nat) : option nat := None.

Definition exItem (l v : string) (d : option bool) : ComboBoxItem :=
  {| label := l; value := v; item_disabled := None; deletable := d |}.

Definition exState (focused composing : bool) (text : string)
  : @State (option nat) (option (@ComboBoxOption string)) :=
  {| isFocused := focused;
     uncontrolledInputValue := text;
     isComposing := composing;
     focusControl := Some 0;
     listBox := None;
     selectedListId := "id-2" |}.

Definition exProps (selected : list (@ComboBoxItem string))
  (controlled : option string) (isDisabled : bool) : Props :=
  {| items := [exItem "Apple" "a" None; exItem "Banana" "b" None];
     selectedItems := selected;
     name := None;
     disabled := isDisabled;
     error := false;
     creatable := false;
     placeholder := "";
     controlledInputValue := controlled;
     className := "";
     onChange := false;
     onChangeInput := true;
     onAdd := true;
     onDelete := true;
     onSelect := true;
     onChangeSelected := true;
     onFocus := true;
     onBlur := true |}.

Definition exListBoxKeyDown (p : @Props string)
  (s : @State (option nat) (option (@ComboBoxOption string))) (key : string)
  : option (@ComboBoxOption string) * list (@Commit string) :=
  if bool_decide (key = "Enter") then
    match listBox s with
    | Some o => (listBox s, [CommitSelect (item o)])
    | None => (None, [])
    end
  else (None, []).

Definition exHandleKeyDown :=
  handleKeyDown exPrev exNext exReset exListBoxKeyDown.

Definition apple : @ComboBoxItem string := exItem "Apple" "a" None.
Definition banana : @ComboBoxItem string := exItem "Banana" "b" None.
Definition lockedApple : @ComboBoxItem string := exItem "Apple" "a" (Some false).

(** The candidate the list box hands the toggle is an object of [items]; it
    has the label and the value of the selected entry and is another
    object. *)
Definition appleOption : @ComboBoxItem string :=
  {| label := "Apple"; value := "a"; item_disabled := Some false;
     deletable := None |}.

(** C1, as stated, fails where two entries have the label and the value of
    the candidate and only the second may be deleted: an entry matches and
    its flag is not [false], and the toggle makes no call, since the entry
    [find] returns is the first one, which is locked. *)
Lemma handleSelect_some_entry_counterexample :
  (exists e, e ∈ [lockedApple; apple]
             /\ sameLabelValue e appleOption /\ deletable e <> Some false)
  /\ handleSelect (exProps [lockedApple; apple] None false) appleOption
       (exState true false "")
     = (tt, exState true false "", [])
  /\ handleSelect (exProps [lockedApple; apple] None false) appleOption
       (exState true false "")
     <> (tt, exState true false "",
         fired (onDelete (exProps [lockedApple; apple] None false))
           (CallOnDelete appleOption)
         ++ fired (onChangeSelected (exProps [lockedApple; apple] None false))
              (CallOnChangeSelected
                 (filter (fun e => ~ sameLabelValue e appleOption)
                    [lockedApple; apple]))).
Proof.
  split; [ | split].
  - exists apple. split; [right; left | split; [split; reflexivity | discriminate]].
  - reflexivity.
  - discriminate.
Qed.

(** C1 (as amended) at a concrete input: the first match may be deleted, a
    later one is locked, and both are removed. *)
Lemma handleSelect_deletes_selected_example :
  handleSelect (exProps [banana; apple; lockedApple] None false) appleOption
    (exState true false "")
  = (tt, exState true false "",
     [CallOnDelete appleOption; CallOnChangeSelected [banana]]).
Proof.
  refine (handleSelect_deletes_selected
            (exProps [banana; apple; lockedApple] None false) appleOption
            (exState true false "") 1 apple _ _).
  - split; [reflexivity | split; [split; reflexivity | ]].
    intros j e Hj Hlt. destruct j as [ | j]; [ | lia].
    injection Hj as <-. intros [Hl _]. discriminate Hl.
  - discriminate.
Defined.

(** C2 at a concrete input. *)
Lemma handleSelect_appends_unselected_example :
  handleSelect (exProps [banana] None false) appleOption (exState true false "")
  = (tt, exState true false "",
     [CallOnSelect appleOption; CallOnChangeSelected [banana; appleOption]]).
Proof.
  refine (handleSelect_appends_unselected (exProps [banana] None false)
            appleOption (exState true false "") _).
  intros e He [Hl _]. apply list_elem_of_singleton in He. subst e.
  discriminate Hl.
Defined.

(** C3 at a concrete input: the first match is locked, a later one is not. *)
Lemma handleSelect_locked_noop_example :
  handleSelect (exProps [banana; lockedApple; apple] None false) appleOption
    (exState true false "")
  = (tt, exState true false "", []).
Proof.
  refine (handleSelect_locked_noop
            (exProps [banana; lockedApple; apple] None false) appleOption
            (exState true false "") 1 lockedApple _ _).
  - split; [reflexivity | split; [split; reflexivity | ]].
    intros j e Hj Hlt. destruct j as [ | j]; [ | lia].
    injection Hj as <-. intros [Hl _]. discriminate Hl.
  - reflexivity.
Defined.

(** The round trip at a concrete input, with strings for values. *)
Lemma toggle_twice_round_trip_example :
  exists once,
    changeSelected
      (calls_of (handleSelect (exProps [banana] None false) apple)
         (exState true false ""))
    = Some once
    /\ once = [banana; apple]
    /\ changeSelected
         (calls_of
            (handleSelect
               (withSelectedItems (exProps [banana] None false) once) apple)
            (exState true false ""))
       = Some [banana].
Proof.
  refine (toggle_twice_round_trip (exProps [banana] None false) apple
            (exState true false "") (exState true false "") _ _ _).
  - reflexivity.
  - intros e He [Hl _]. apply list_elem_of_singleton in He. subst e.
    discriminate Hl.
  - reflexivity.
Defined.

(** JavaScript values for the examples: strings, numbers (the integers
    among them) and [NaN], with their [===]: [NaN] is [===] to nothing, not
    even to itself. *)
Inductive JsValue : Type :=
| JsString (s : string)
| JsNumber (n : Z)
| JsNaN.

Definition jsStrictEq (a b : JsValue) : bool :=
  match a, b with
  | JsString s, JsString t => bool_decide (s = t)
  | JsNumber n, JsNumber m => bool_decide (n = m)
  | _, _ => false
  end.

Definition jsItem (l : string) (v : JsValue) : @ComboBoxItem JsValue :=
  {| label := l; value := v; item_disabled := None; deletable := None |}.

Definition jsProps (selected : list (@ComboBoxItem JsValue)) : Props :=
  {| items := [jsItem "One" (JsNumber 1); jsItem "Unknown" JsNaN];
     selectedItems := selected;
     name := None;
     disabled := false;
     error := false;
     creatable := false;
     placeholder := "";
     controlledInputValue := None;
     className := "";
     onChange := false;
     onChangeInput := true;
     onAdd := true;
     onDelete := true;
     onSelect := true;
     onChangeSelected := true;
     onFocus := true;
     onBlur := true |}.

(** C4, as stated, fails for an option whose value is [NaN]: nothing is
    selected, so no entry matches the option, and its [deletable] flag is
    unset; the first toggle passes the array with the option, and the
    second, against that array, finds no match ([NaN === NaN] is false) and
    appends the option again instead of giving the empty array back. *)
Lemma toggle_twice_nan_counterexample :
  (forall e, e ∈ selectedItems (jsProps [])
             -> strictMatch jsStrictEq e (jsItem "Unknown" JsNaN) = false)
  /\ deletable (jsItem "Unknown" JsNaN) = None
  /\ changeSelected
       (calls_of (handleSelectStrict jsStrictEq (jsProps [])
                    (jsItem "Unknown" JsNaN))
          (exState true false ""))
     = Some [jsItem "Unknown" JsNaN]
  /\ changeSelected
       (calls_of (handleSelectStrict jsStrictEq
                    (withSelectedItems (jsProps []) [jsItem "Unknown" JsNaN])
                    (jsItem "Unknown" JsNaN))
          (exState true false ""))
     = Some [jsItem "Unknown" JsNaN; jsItem "Unknown" JsNaN]
  /\ changeSelected
       (calls_of (handleSelectStrict jsStrictEq
                    (withSelectedItems (jsProps []) [jsItem "Unknown" JsNaN])
                    (jsItem "Unknown" JsNaN))
          (exState true false ""))
     <> Some (selectedItems (jsProps [])).
Proof.
  split; [ | split; [ | split; [ | split]]].
  - intros e He. inversion He.
  - reflexivity.
  - reflexivity.
  - reflexivity.
  - discriminate.
Qed.

(** C4 (as amended) at a concrete input: a number that is [===] to itself,
    toggled against an array that holds the [NaN] option. *)
Lemma toggle_twice_round_trip_strict_example :
  exists once,
    changeSelected
      (calls_of (handleSelectStrict jsStrictEq
                   (jsProps [jsItem "Unknown" JsNaN]) (jsItem "One" (JsNumber 1)))
         (exState true false ""))
    = Some once
    /\ once = [jsItem "Unknown" JsNaN; jsItem "One" (JsNumber 1)]
    /\ changeSelected
         (calls_of (handleSelectStrict jsStrictEq
                      (withSelectedItems (jsProps [jsItem "Unknown" JsNaN]) once)
                      (jsItem "One" (JsNumber 1)))
            (exState true false ""))
       = Some [jsItem "Unknown" JsNaN].
Proof.
  refine (toggle_twice_round_trip_strict jsStrictEq
            (jsProps [jsItem "Unknown" JsNaN]) (jsItem "One" (JsNumber 1))
            (exState true false "") (exState true false "") _ _ _ _).
  - reflexivity.
  - intros e He. apply list_elem_of_singleton in He. subst e. reflexivity.
  - reflexivity.
  - reflexivity.
Defined.

(** C5 at a concrete input: Escape in a focused widget. *)
Lemma escape_blurs_once_example :
  isFocused
    (state_of (exHandleKeyDown (exProps [banana] None false)
                 (exState true false "") "Escape")
       (exState true false ""))
  = false
  /\ focusControl
       (state_of (exHandleKeyDown (exProps [banana] None false)
                    (exState true false "") "Escape")
          (exState true false ""))
     = None
  /\ timesFired isOnBlur
       (calls_of (exHandleKeyDown (exProps [banana] None false)
                    (exState true false "") "Escape")
          (exState true false ""))
     = 1.
Proof.
  refine (proj1 (escape_blurs_once exPrev exNext exReset exListBoxKeyDown
                   (exProps [banana] None false) (exState true false "")
                   "Escape" _ _) _).
  - left. reflexivity.
  - reflexivity.
  - reflexivity.
Defined.

Example escape_in_the_input :
  step exPrev exNext exReset exListBoxKeyDown (exProps [banana] None false)
    (exState true false "ban") (InputKeyDown "Escape")
  = ({| isFocused := false;
        uncontrolledInputValue := "";
        isComposing := false;
        focusControl := None;
        listBox := None;
        selectedListId := "id-2" |},
     [DomStopPropagation; CallOnBlur]).
Proof. reflexivity. Qed.

(** C6 at a concrete input. *)
Lemma composing_suppresses_keys_example :
  (forall key,
     exHandleKeyDown (exProps [banana] None false) (exState true true "ka") key
       (exState true true "ka")
     = (tt, exState true true "ka", []))
  /\ run exPrev exNext exReset exListBoxKeyDown (exProps [banana] None false)
       [KeyDown "Escape"; KeyDown "Tab"; KeyDown "ArrowLeft"; KeyDown "ArrowDown"]
       (exState true true "ka")
     = (exState true true "ka", []).
Proof.
  destruct (composing_suppresses_keys exPrev exNext exReset exListBoxKeyDown
              (exProps [banana] None false) (exState true true "ka"))
    as (Hkey & Hkeys & _).
  - reflexivity.
  - split; [exact Hkey | ].
    exact (Hkeys ["Escape"; "Tab"; "ArrowLeft"; "ArrowDown"]).
Defined.

(** C7 at concrete inputs: a widget that holds its text and one whose text
    the host controls. *)
Lemma entering_focused_clears_text_example :
  uncontrolledInputValue
    (state_of (afterRender true (exProps [banana] None false)
                 (exState false false "ban") (exProps [banana] None false)
                 (exState true false "ban"))
       (exState true false "ban"))
  = ""
  /\ inputValue (exProps [banana] (Some "ban") false)
       (state_of (afterRender true (exProps [banana] (Some "ban") false)
                    (exState false false "") (exProps [banana] (Some "ban") false)
                    (exState true false ""))
          (exState true false ""))
     = "ban".
Proof.
  split.
  - refine (proj1 (proj1 (entering_focused_clears_text true
                             (exProps [banana] None false)
                             (exState false false "ban")
                             (exProps [banana] None false)
                             (exState true false "ban") _ _) _));
      reflexivity.
  - destruct (entering_focused_clears_text true
                (exProps [banana] (Some "ban") false) (exState false false "")
                (exProps [banana] (Some "ban") false) (exState true false ""))
      as [_ Hcontrolled]; [reflexivity | reflexivity | ].
    destruct (Hcontrolled "ban") as (Hshown & Hhost & _); [reflexivity | ].
    rewrite Hshown. exact Hhost.
Defined.

(** C10 at a concrete input. *)
Lemma disabled_click_stays_blurred_example :
  run exPrev exNext exReset exListBoxKeyDown (exProps [banana] None true)
    [ContainerClick false; ContainerClick true; ContainerClick false]
    (exState false false "")
  = (exState false false "", []).
Proof.
  destruct (disabled_click_stays_blurred exPrev exNext exReset exListBoxKeyDown
              (exProps [banana] None true) (exState false false ""))
    as [_ Hclicks]; [reflexivity | ].
  apply Hclicks. repeat constructor.
Defined.

(** The other keys, in a focused widget whose first deletion button has the
    focus: Tab focuses the input and blurs, the left arrow moves the focus
    of the deletion buttons, any other key gives the focus back to the
    input. *)
Example tab_blurs :
  exHandleKeyDown (exProps [banana] None false) (exState true false "") "Tab"
    (exState true false "")
  = (tt, {| isFocused := false;
            uncontrolledInputValue := "";
            isComposing := false;
            focusControl := None;
            listBox := None;
            selectedListId := "id-2" |},
     [DomFocusInput; CallOnBlur]).
Proof. reflexivity. Qed.

Example arrow_left_moves_focus :
  exHandleKeyDown (exProps [banana; apple] None false) (exState true false "")
    "ArrowLeft" (exState true false "")
  = (tt, exState true false "", [DomStopPropagation]).
Proof. reflexivity. Qed.

Example other_key_resets_focus :
  exHandleKeyDown (exProps [banana] None false) (exState true false "") "a"
    (exState true false "")
  = (tt, {| isFocused := true;
            uncontrolledInputValue := "";
            isComposing := false;
            focusControl := None;
            listBox := None;
            selectedListId := "id-2" |},
     [DomStopPropagation; DomFocusInput]).
Proof. reflexivity. Qed.

(** A click focuses an enabled widget, whose text is then cleared; typing
    writes the text; Escape blurs. *)
Example click_type_escape :
  run exPrev exNext exReset exListBoxKeyDown (exProps [banana] None false)
    [ContainerClick false; InputChange "ab"; InputKeyDown "Escape"]
    (exState false false "zz")
  = ({| isFocused := false;
        uncontrolledInputValue := "";
        isComposing := false;
        focusControl := None;
        listBox := None;
        selectedListId := "id-2" |},
     [CallOnFocus; DomFocusInput; CallOnChangeInput "ab";
      DomStopPropagation; CallOnBlur]).
Proof. reflexivity. Qed.

Example rendered_input :
  renderInput (fun lb : option (@ComboBoxOption string) => lb)
    (fun _ => "id-1") "input" (exProps [banana] None false)
    (exState true false "")
  = [("type", AStr "text"); ("value", AStr ""); ("disabled", ABool false);
     ("autoComplete", AStr "off"); ("tabIndex", ANum 0);
     ("role", AStr "combobox"); ("aria-controls", AStr "id-1 id-2");
     ("aria-haspopup", AStr "listbox"); ("aria-expanded", ABool true);
     ("aria-disabled", ABool false); ("aria-autocomplete", AStr "list");
     ("className", AStr "input")].
Proof. reflexivity. Qed.

(** C9 on duplicates: both entries with the label and the value of the
    deleted item go, in one call. *)
Example handleDelete_duplicates :
  handleDelete (exProps [apple; banana; lockedApple] None false) appleOption
    (exState true false "")
  = (tt, exState true false "",
     [CallOnDelete appleOption; CallOnChangeSelected [banana]]).
Proof. reflexivity. Qed.

(** ** The further properties at concrete inputs *)

(** X1 at a concrete input: no entry is an apple. *)
Lemma handleDelete_absent_item_example :
  handleDelete (exProps [banana] None false) appleOption (exState true false "")
  = (tt, exState true false "",
     [CallOnDelete appleOption; CallOnChangeSelected [banana]]).
Proof.
  refine (handleDelete_absent_item (exProps [banana] None false) appleOption
            (exState true false "") _).
  intros e He [Hl _]. apply list_elem_of_singleton in He. subst e.
  discriminate Hl.
Defined.

(** X2 at a concrete input. *)
Lemma handleDelete_composes_example :
  exists lx ly lxy,
    changeSelected
      (calls_of (handleDelete (exProps [apple; banana; lockedApple] None false)
                   apple)
         (exState true false ""))
    = Some lx
    /\ changeSelected
         (calls_of (handleDelete (exProps [apple; banana; lockedApple] None false)
                      banana)
            (exState true false ""))
       = Some ly
    /\ changeSelected
         (calls_of
            (handleDelete
               (withSelectedItems (exProps [apple; banana; lockedApple] None false)
                  lx)
               apple)
            (exState true false ""))
       = Some lx
    /\ changeSelected
         (calls_of
            (handleDelete
               (withSelectedItems (exProps [apple; banana; lockedApple] None false)
                  lx)
               banana)
            (exState true false ""))
       = Some lxy
    /\ changeSelected
         (calls_of
            (handleDelete
               (withSelectedItems (exProps [apple; banana; lockedApple] None false)
                  ly)
               apple)
            (exState true false ""))
       = Some lxy.
Proof.
  refine (handleDelete_composes (exProps [apple; banana; lockedApple] None false)
            apple banana (exState true false "") _).
  reflexivity.
Defined.

(** X3 at a concrete input: the apple, first of three, ends up last. *)
Lemma toggle_selected_twice_moves_last_example :
  exists once,
    changeSelected
      (calls_of (handleSelect (exProps [apple; banana] None false) appleOption)
         (exState true false ""))
    = Some once
    /\ once = [banana]
    /\ changeSelected
         (calls_of
            (handleSelect (withSelectedItems (exProps [apple; banana] None false)
                             once)
               appleOption)
            (exState true false ""))
       = Some [banana; appleOption].
Proof.
  destruct (toggle_selected_twice_moves_last
              (exProps [apple; banana] None false) appleOption
              (exState true false "") 0 apple)
    as (once & Hfirst & -> & Hsecond).
  - reflexivity.
  - split; [reflexivity | split; [split; reflexivity | ]].
    intros j e _ Hlt. lia.
  - discriminate.
  - exists [banana]. split; [exact Hfirst | split; [reflexivity | exact Hsecond]].
Defined.

(** X4 at a concrete input: a selection. *)
Lemma handleSelect_touches_candidate_only_example :
  filter (fun e => ~ sameLabelValue e appleOption) [banana; appleOption]
  = filter (fun e => ~ sameLabelValue e appleOption) [banana]
  /\ (length [banana; appleOption] = 2 \/ length [banana; appleOption] < 1).
Proof.
  refine (handleSelect_touches_candidate_only (exProps [banana] None false)
            appleOption (exState true false "") [banana; appleOption] _).
  reflexivity.
Defined.

(** X7 at a concrete input: Tab in a focused widget. *)
Lemma tab_focuses_input_before_blur_example :
  calls_of (exHandleKeyDown (exProps [banana] None false)
              (exState true false "") "Tab")
    (exState true false "")
  = [DomFocusInput; CallOnBlur].
Proof.
  refine (proj1 (tab_focuses_input_before_blur exPrev exNext exReset
                   exListBoxKeyDown (exProps [banana] None false)
                   (exState true false "") _) _);
    reflexivity.
Defined.

(** X8 at a concrete input: keys, a click, typing and a click outside while
    a composition is in progress. *)
Lemma composing_flag_kept_example :
  isComposing
    (run exPrev exNext exReset exListBoxKeyDown (exProps [banana] None false)
       [KeyDown "a"; ContainerClick false; InputChange "x"; OuterClick]
       (exState false true "")).1
  = true.
Proof.
  refine (composing_flag_kept exPrev exNext exReset exListBoxKeyDown
            (exProps [banana] None false)
            [KeyDown "a"; ContainerClick false; InputChange "x"; OuterClick]
            (exState false true "") _).
  repeat constructor.
Defined.

(** X9 at a concrete input: the host holds the text [ban]. *)
Lemma controlled_text_never_written_example :
  uncontrolledInputValue
    (run exPrev exNext exReset exListBoxKeyDown
       (exProps [banana] (Some "ban") false)
       [ContainerClick false; InputChange "bana"; InputKeyDown "Escape"]
       (exState false false "zz")).1
  = "zz"
  /\ inputValue (exProps [banana] (Some "ban") false)
       (run exPrev exNext exReset exListBoxKeyDown
          (exProps [banana] (Some "ban") false)
          [ContainerClick false; InputChange "bana"; InputKeyDown "Escape"]
          (exState false false "zz")).1
     = "ban".
Proof.
  refine (controlled_text_never_written exPrev exNext exReset exListBoxKeyDown
            (exProps [banana] (Some "ban") false) "ban"
            [ContainerClick false; InputChange "bana"; InputKeyDown "Escape"]
            (exState false false "zz") _).
  reflexivity.
Defined.

(** X10 at a concrete input: focused twice and blurred once, the widget ends
    up focused. *)
Lemma focus_blur_balance_example :
  timesFired isOnFocus
    (run exPrev exNext exReset exListBoxKeyDown (exProps [banana] None false)
       [ContainerClick false; ContainerClick false; KeyDown "Tab"; OuterClick;
        InputFocus]
       (exState false false "")).2
  + 0
  = timesFired isOnBlur
      (run exPrev exNext exReset exListBoxKeyDown (exProps [banana] None false)
         [ContainerClick false; ContainerClick false; KeyDown "Tab"; OuterClick;
          InputFocus]
         (exState false false "")).2
    + 1.
Proof.
  refine (focus_blur_balance exPrev exNext exReset exListBoxKeyDown
            (exProps [banana] None false)
            [ContainerClick false; ContainerClick false; KeyDown "Tab";
             OuterClick; InputFocus]
            (exState false false "") _ _);
    reflexivity.
Defined.

(** X15 at a concrete input: the host passes a new array while the user
    types in a focused widget. *)
Lemma new_array_clears_text_example :
  uncontrolledInputValue
    (state_of (afterRender false (exProps [banana] None false)
                 (exState true false "ap") (exProps [banana] None false)
                 (exState true false "ap"))
       (exState true false "ap"))
  = ""
  /\ calls_of (afterRender false (exProps [banana] None false)
                 (exState true false "ap") (exProps [banana] None false)
                 (exState true false "ap"))
       (exState true false "ap")
     = [DomFocusInput].
Proof.
  refine (proj1 (new_array_clears_text (exProps [banana] None false)
                   (exState true false "ap") (exProps [banana] None false)
                   (exState true false "ap") (exState true false "ap") _)).
  reflexivity.
Defined.


(** A key pressed on a deletion button of a blurred widget: the key handler
    asks for the focus of the input, and the focus event the browser sends
    the input in response focuses the widget and calls [onFocus]. *)
Example key_then_focus_event :
  run exPrev exNext exReset exListBoxKeyDown (exProps [banana] None false)
    [KeyDown "a"; InputFocus] (exState false false "")
  = ({| isFocused := true;
        uncontrolledInputValue := "";
        isComposing := false;
        focusControl := None;
        listBox := None;
        selectedListId := "id-2" |},
     [DomStopPropagation; DomFocusInput; CallOnFocus; DomFocusInput]).
Proof. reflexivity. Qed.


(** * CurrencyInput

    The handlers and effects of the [CurrencyInput] component
    (src/components/Input/CurrencyInput/CurrencyInput.tsx).  The component
    writes the value of the input element through [innerRef]; the writes
    React itself makes to the element when the host changes a controlled
    [value] are not part of the component and are not modelled. *)
Module CurrencyInput.

Import Stdlib.Strings.Ascii.

Inductive Call : Type :=
| CallOnFormatValue (formatted : string)
| CallOnFocus
| CallOnBlur.

Record Props : Type := {
  value : option string;
  defaultValue : option string;
  onFormatValue : bool;
  onFocus : bool;
  onBlur : bool;
}.

(** The [isFocused] cell and the element [innerRef.current] refers to: [None]
    while the ref is [null], [Some v] for an input whose value is [v]. *)
Record State : Type := {
  isFocused : bool;
  innerRef : option string;
}.

Definition fired (supplied : bool) (c : Call) : list Call :=
  if supplied then [c] else [].

(** [replace(/,/g, '')]: the string without its commas. *)
Fixpoint removeCommas (s : string) : string :=
  match s with
  | EmptyString => EmptyString
  | String c s' =>
      if Ascii.eqb c ","%char then removeCommas s' else String c (removeCommas s')
  end.

Fixpoint hasComma (s : string) : bool :=
  match s with
  | EmptyString => false
  | String c s' => Ascii.eqb c ","%char || hasComma s'
  end.

(** The characters of [s] that are not commas, in their order. *)
Fixpoint nonCommas (s : string) : list ascii :=
  match s with
  | EmptyString => []
  | String c s' =>
      if Ascii.eqb c ","%char then nonCommas s' else c :: nonCommas s'
  end.

Definition setIsFocused (b : bool) (st : State) : State :=
  {| isFocused := b; innerRef := innerRef st |}.

Definition setInputValue (v : string) (st : State) : State :=
  {| isFocused := isFocused st; innerRef := Some v |}.

(** [formatValue]: nothing without an element or when the element shows
    [formatted] already; otherwise the element is written and the host
    told. *)
Definition formatValue (p : Props) (formatted : string) (st : State)
  : State * list Call :=
  match innerRef st with
  | None => (st, [])
  | Some shown =>
      if bool_decide (formatted = shown) then (st, [])
      else (setInputValue formatted st,
            fired (onFormatValue p) (CallOnFormatValue formatted))
  end.

Definition handleFocus (p : Props) (st : State) : State * list Call :=
  let st1 := setIsFocused true st in
  let '(st2, calls) :=
    match innerRef st1 with
    | Some shown => formatValue p (removeCommas shown) st1
    | None => (st1, [])
    end in
  (st2, calls ++ fired (onFocus p) CallOnFocus).

Definition handleBlur (p : Props) (st : State) : State * list Call :=
  (setIsFocused false st, fired (onBlur p) CallOnBlur).

Section Effects.

(** [formatCurrency] of [./currencyInputHelper]. *)
Variable formatCurrency : string -> string.

(** The effect of the first render. *)
Definition mountEffect (p : Props) (st : State) : State * list Call :=
  match value p, defaultValue p with
  | None, Some d => formatValue p (formatCurrency d) st
  | _, _ => (st, [])
  end.

(** The effect of the renders in which [isFocused], [props.value] or
    [formatValue] changed; [st] is the state of the render. *)
Definition formatEffect (p : Props) (st : State) : State * list Call :=
  if negb (isFocused st) then
    match value p with
    | Some v => formatValue p (formatCurrency v) st
    | None =>
        match innerRef st with
        | Some shown => formatValue p (formatCurrency shown) st
        | None => (st, [])
        end
    end
  else (st, []).

Lemma removeCommas_clean (s : string) : hasComma (removeCommas s) = false.
Proof.
  induction s as [ | c s IH]; [reflexivity | ]. simpl.
  destruct (Ascii.eqb c ","%char) eqn:Hc; [exact IH | ]. simpl.
  rewrite Hc, IH. reflexivity.
Qed.

Lemma removeCommas_id (s : string) : removeCommas s = s <-> hasComma s = false.
Proof.
  split.
  - intros Hid. rewrite <- Hid. apply removeCommas_clean.
  - induction s as [ | c s IH]; [reflexivity | ]. simpl.
    destruct (Ascii.eqb c ","%char); [discriminate | ].
    intros Hs. rewrite (IH Hs). reflexivity.
Qed.

Lemma removeCommas_nonCommas (s : string) :
  nonCommas (removeCommas s) = nonCommas s.
Proof.
  induction s as [ | c s IH]; [reflexivity | ]. simpl.
  destruct (Ascii.eqb c ","%char) eqn:Hc; [exact IH | ]. simpl.
  rewrite Hc, IH. reflexivity.
Qed.

Lemma formatValue_shown (p : Props) (formatted shown : string) (st : State) :
  innerRef st = Some shown ->
  innerRef (formatValue p formatted st).1 = Some formatted
  /\ isFocused (formatValue p formatted st).1 = isFocused st
  /\ (formatValue p formatted st).2
     = fired (negb (bool_decide (formatted = shown)) && onFormatValue p)
         (CallOnFormatValue formatted).
Proof.
  intros Href. unfold formatValue. rewrite Href.
  destruct (bool_decide (formatted = shown)) eqn:Heq; simpl.
  - apply bool_decide_eq_true_1 in Heq. subst shown.
    repeat split. exact Href.
  - repeat split.
Qed.

(** X17: [formatValue] tells the host exactly what the input comes to show,
    and only when that changes: without an element it does nothing; with
    one, the input shows [formatted] afterwards, [onFormatValue] is called
    (with [formatted], if passed) exactly when the input showed something
    else, and a second call with the same text does nothing. *)
Theorem formatValue_reports_change (p : Props) (formatted : string) (st : State) :
  (innerRef st = None -> formatValue p formatted st = (st, []))
  /\ (forall shown,
        innerRef st = Some shown ->
        innerRef (formatValue p formatted st).1 = Some formatted
        /\ (formatValue p formatted st).2
           = fired (negb (bool_decide (formatted = shown)) && onFormatValue p)
               (CallOnFormatValue formatted)
        /\ formatValue p formatted (formatValue p formatted st).1
           = ((formatValue p formatted st).1, [])).
Proof.
  split.
  - intros Href. unfold formatValue. rewrite Href. reflexivity.
  - intros shown Href.
    destruct (formatValue_shown p formatted shown st Href) as (Hshown & _ & Hcalls).
    split; [exact Hshown | split; [exact Hcalls | ]].
    unfold formatValue at 1. rewrite Hshown.
    rewrite bool_decide_eq_true_2 by reflexivity. reflexivity.
Qed.


(** X18: when the input gets the focus it shows its text without the commas,
    every other character kept in its order; [onFormatValue] is called with
    that text exactly when the text had a comma, and before [onFocus]. *)
Theorem handleFocus_strips_commas (p : Props) (st : State) (shown : string) :
  innerRef st = Some shown ->
  innerRef (handleFocus p st).1 = Some (removeCommas shown)
  /\ hasComma (removeCommas shown) = false
  /\ nonCommas (removeCommas shown) = nonCommas shown
  /\ isFocused (handleFocus p st).1 = true
  /\ (handleFocus p st).2
     = fired (hasComma shown && onFormatValue p)
         (CallOnFormatValue (removeCommas shown))
       ++ fired (onFocus p) CallOnFocus.
Proof.
  intros Href. unfold handleFocus. simpl innerRef. rewrite Href.
  destruct (formatValue_shown p (removeCommas shown) shown
              (setIsFocused true st) Href) as (Hshown & Hfoc & Hcalls).
  destruct (formatValue p (removeCommas shown) (setIsFocused true st))
    as [st2 calls]. simpl in *.
  split; [exact Hshown | ].
  split; [apply removeCommas_clean | ].
  split; [apply removeCommas_nonCommas | ].
  split; [exact Hfoc | ].
  rewrite Hcalls. f_equal. f_equal.
  destruct (hasComma shown) eqn:Hcomma.
  - rewrite bool_decide_eq_false_2; [reflexivity | ].
    intros Hid. apply removeCommas_id in Hid. congruence.
  - rewrite bool_decide_eq_true_2; [reflexivity | ].
    apply removeCommas_id. exact Hcomma.
Qed.



End Effects.

(** ** At concrete inputs *)

Definition exProps : Props :=
  {| value := None; defaultValue := None; onFormatValue := true;
     onFocus := true; onBlur := true |}.

Definition exState (focused : bool) (shown : string) : State :=
  {| isFocused := focused; innerRef := Some shown |}.

(** A stand-in for [formatCurrency] that groups the digits of [1234567] and
    leaves every other text as it is. *)
Definition exFormatCurrency (s : string) : string :=
  if bool_decide (s = "1234567") then "1,234,567" else s.

(** X18 at a concrete input. *)
Lemma handleFocus_strips_commas_example :
  innerRef (handleFocus exProps (exState false "1,234,567")).1 = Some "1234567"
  /\ hasComma "1234567" = false
  /\ nonCommas "1234567" = nonCommas "1,234,567"
  /\ isFocused (handleFocus exProps (exState false "1,234,567")).1 = true
  /\ (handleFocus exProps (exState false "1,234,567")).2
     = [CallOnFormatValue "1234567"; CallOnFocus].
Proof.
  refine (handleFocus_strips_commas exProps (exState false "1,234,567")
            "1,234,567" _).
  reflexivity.
Defined.


(** Focus and blur in turn: the commas go and come back, and the host is
    told of each change. *)
Example focus_then_blur :
  let st1 := (handleFocus exProps (exState false "1,234,567")).1 in
  let st2 := (handleBlur exProps st1).1 in
  (handleFocus exProps (exState false "1,234,567")).2
  = [CallOnFormatValue "1234567"; CallOnFocus]
  /\ formatEffect exFormatCurrency exProps st2
     = (exState false "1,234,567", [CallOnFormatValue "1,234,567"]).
Proof. split; reflexivity. Qed.


End CurrencyInput.

(** * AppLauncher

    The split of the categories of [AppLauncher]
    (src/components/Header/AppLauncher/AppLauncher.tsx) into the base
    category and the others.  The array [apps] holds objects, and
    [category !== baseApps] compares them by identity: an array is a list of
    references, and [heap] gives the object of a reference. *)
Module AppLauncher.

Record Item : Type := {
  label : string;
  url : string;
  target : option string;
}.

(** [type_] is the optional field [type]. *)
Record Category : Type := {
  type_ : option string;
  heading : string;
  items : list Item;
}.

Section Apps.

Variable heap : nat -> Category.

(** [apps.find(({ type }) => type === 'base')], [None] for [undefined]. *)
Definition baseApps (apps : list nat) : option nat :=
  snd <$> list_find (fun r => type_ (heap r) = Some "base") apps.

(** [apps.filter((category) => category !== baseApps)]. *)
Definition others (apps : list nat) : list nat :=
  filter (fun r => Some r <> baseApps apps) apps.

(** What the dropdown shows: the section of the base category, if there is
    one, then a section for each of the others, each with its heading and
    its links, and the footer when [urlToShowAll] is a non-empty string. *)
Record View : Type := {
  baseSection : option (string * list Item);
  otherSections : list (string * list Item);
  footer : option string;
}.

Definition section (r : nat) : string * list Item :=
  (heading (heap r), items (heap r)).

Definition render (apps : list nat) (urlToShowAll : option string) : View :=
  {| baseSection := section <$> baseApps apps;
     otherSections := section <$> others apps;
     footer := match urlToShowAll with
               | Some u => if bool_decide (u = "") then None else Some u
               | None => None
               end |}.

Lemma baseApps_Some (apps : list nat) (b : nat) :
  baseApps apps = Some b
  <-> exists i, apps !! i = Some b
                /\ type_ (heap b) = Some "base"
                /\ forall j r, apps !! j = Some r -> j < i ->
                               type_ (heap r) <> Some "base".
Proof.
  unfold baseApps. split.
  - intros Hb. apply fmap_Some in Hb as [[i x] [Hf ->]].
    apply list_find_Some in Hf as (Hi & Hx & Hlt). exists i. simpl.
    split; [exact Hi | split; [exact Hx | exact Hlt]].
  - intros (i & Hi & Hx & Hlt). apply fmap_Some. exists (i, b).
    split; [ | reflexivity]. apply list_find_Some.
    split; [exact Hi | split; [exact Hx | exact Hlt]].
Qed.

Lemma baseApps_None (apps : list nat) :
  baseApps apps = None
  <-> forall r, r ∈ apps -> type_ (heap r) <> Some "base".
Proof.
  unfold baseApps. rewrite fmap_None, list_find_None, Forall_forall.
  reflexivity.
Qed.

Lemma filter_keeps_others (o : option nat) (l : list nat) :
  (forall r, r ∈ l -> Some r <> o) ->
  filter (fun r => Some r <> o) l = l.
Proof.
  induction l as [ | r l IH]; intros Hall; [reflexivity | ].
  rewrite filter_cons_True by (apply Hall; left).
  f_equal. apply IH. intros r' Hr'. apply Hall. right. exact Hr'.
Qed.

(** X20: the base category is the first object of [apps] whose type is
    [base]: it is found whenever [apps] has such an object, and no object
    before it in [apps] has that type.  Every category of [apps] is shown
    in exactly one place: the others are all the objects of [apps] but the
    base category, in their order, so a later category of type [base] is
    shown among the others.  Without a category of type [base] there is no
    base section and the others are [apps], unchanged. *)
Theorem apps_split (apps : list nat) :
  (forall b, baseApps apps = Some b
             <-> exists i, apps !! i = Some b
                           /\ type_ (heap b) = Some "base"
                           /\ forall j r, apps !! j = Some r -> j < i ->
                                          type_ (heap r) <> Some "base")
  /\ ((exists r, r ∈ apps /\ type_ (heap r) = Some "base") ->
      exists b, baseApps apps = Some b)
  /\ (forall r, r ∈ apps ->
                (baseApps apps = Some r /\ r ∉ others apps)
                \/ (baseApps apps <> Some r /\ r ∈ others apps))
  /\ (forall r, r ∈ others apps -> r ∈ apps)
  /\ others apps `sublist_of` apps
  /\ (forall b, baseApps apps = Some b ->
                b ∈ apps /\ type_ (heap b) = Some "base")
  /\ ((forall r, r ∈ apps -> type_ (heap r) <> Some "base") ->
      baseApps apps = None /\ others apps = apps).
Proof.
  split; [exact (baseApps_Some apps) | ].
  split.
  { intros (r & Hr & Hty). destruct (baseApps apps) as [b | ] eqn:Hb.
    - exists b. reflexivity.
    - exfalso. apply (proj1 (baseApps_None apps) Hb r Hr). exact Hty. }
  split; [ | split; [ | split; [ | split]]].
  - intros r Hr. unfold others.
    destruct (decide (baseApps apps = Some r)) as [Hb | Hb].
    + left. split; [exact Hb | ]. intros Hin.
      apply list_elem_of_filter in Hin as [Hne _]. apply Hne.
      symmetry. exact Hb.
    + right. split; [exact Hb | ]. apply list_elem_of_filter.
      split; [ | exact Hr]. intros Heq. apply Hb. symmetry. exact Heq.
  - intros r Hin. apply list_elem_of_filter in Hin as [_ Hr]. exact Hr.
  - apply sublist_filter.
  - intros b Hb. apply baseApps_Some in Hb as (i & Hi & Hty & _).
    split; [ | exact Hty]. apply list_elem_of_lookup. exists i. exact Hi.
  - intros Hnone. apply baseApps_None in Hnone.
    split; [exact Hnone | ]. unfold others. rewrite Hnone.
    apply filter_keeps_others. intros r _. discriminate.
Qed.

(** X21: when no object occurs twice in [apps], the sections shown are the
    categories of [apps], each once: the base section and the other
    sections are a permutation of the sections of [apps].  (An object of
    type [base] that occurs twice is dropped from the others in both
    places.) *)
Theorem sections_cover_apps (apps : list nat) (urlToShowAll : option string) :
  NoDup apps ->
  option_list (baseSection (render apps urlToShowAll))
  ++ otherSections (render apps urlToShowAll)
  ≡ₚ section <$> apps.
Proof.
  intros Hnd. simpl.
  assert (Hperm : option_list (baseApps apps) ++ others apps ≡ₚ apps).
  { unfold others. destruct (baseApps apps) as [b | ] eqn:Hb.
    - apply baseApps_Some in Hb as (i & Hi & _).
      assert (Hin : b ∈ apps) by (apply list_elem_of_lookup; exists i; exact Hi).
      simpl. clear Hi.
      induction apps as [ | r apps' IH]; [inversion Hin | ].
      apply NoDup_cons in Hnd as [Hnin Hnd'].
      destruct (decide (r = b)) as [-> | Hne].
      + rewrite filter_cons_False by (intros Hx; apply Hx; reflexivity).
        constructor. rewrite filter_keeps_others; [reflexivity | ].
        intros r Hr [= ->]. exact (Hnin Hr).
      + rewrite filter_cons_True by congruence.
        apply elem_of_cons in Hin as [Heq | Hin']; [congruence | ].
        rewrite Permutation_swap. constructor. exact (IH Hnd' Hin').
    - rewrite filter_keeps_others; [reflexivity | ].
      intros r _. discriminate. }
  transitivity (section <$> (option_list (baseApps apps) ++ others apps)).
  - rewrite fmap_app. destruct (baseApps apps); reflexivity.
  - apply fmap_Permutation. exact Hperm.
Qed.

End Apps.

(** ** At concrete inputs *)

(** Three objects: a category without type, and two of type [base]. *)
Definition exHeap (r : nat) : Category :=
  match r with
  | 0 => {| type_ := None; heading := "HR";
            items := [{| label := "Payroll"; url := "/payroll"; target := None |}] |}
  | 1 => {| type_ := Some "base"; heading := "Base";
            items := [{| label := "Home"; url := "/"; target := None |}] |}
  | _ => {| type_ := Some "base"; heading := "More"; items := [] |}
  end.

(** X21 at a concrete input: the first base category is pulled out, the
    second stays among the others. *)
Lemma sections_cover_apps_example :
  [section exHeap 1; section exHeap 0; section exHeap 2]
  ≡ₚ [section exHeap 0; section exHeap 1; section exHeap 2].
Proof.
  refine (sections_cover_apps exHeap [0; 1; 2] None _).
  repeat (apply NoDup_cons; split;
          [intros Hin; repeat (apply elem_of_cons in Hin as [Hin | Hin];
                               [discriminate Hin | ]);
           apply elem_of_nil in Hin; exact Hin | ]).
  apply NoDup_nil. exact I.
Defined.

Example second_base_among_others :
  baseApps exHeap [0; 1; 2] = Some 1 /\ others exHeap [0; 1; 2] = [0; 2].
Proof. split; reflexivity. Qed.

(** The same object twice: it is the base category and is dropped from the
    others in both places. *)
Example repeated_base_object :
  baseApps exHeap [1; 0; 1] = Some 1 /\ others exHeap [1; 0; 1] = [0].
Proof. split; reflexivity. Qed.


End AppLauncher.

(** * FieldSet

    What [FieldSet] (src/components/FieldSet/FieldSet.tsx) renders around
    its input: the reference to the help message, the error flag of the
    input and the rows of error messages.  The props are React nodes: [Node]
    is their type, [truthy] the truth value JavaScript gives a node (what
    [&&], [? :] and [!!] test) and [asArray] the elements of a node that is
    an array ([Array.isArray]); an array is an object, so it is truthy. *)
Module FieldSet.

Section Render.

Context {Node : Type}.
Variable truthy : Node -> bool.
Variable asArray : Node -> option (list Node).
Hypothesis array_truthy : forall n l, asArray n = Some l -> truthy n = true.

Record Props : Type := {
  errorMessage : Node;
  helpMessage : Node;
  children : Node;
  required : bool;
}.

(** What is rendered: the [aria-describedby] of the wrapper, the [error] of
    the [Input] (which is rendered when there are no children), the nodes
    of the [Error] rows and the [Help] element with its [id]. *)
Record View : Type := {
  describedBy : option string;
  inputError : option bool;
  requiredLabel : bool;
  errorRows : list Node;
  help : option (string * Node);
}.

Definition render (helpId : string) (p : Props) : View :=
  {| describedBy := if truthy (helpMessage p) then Some helpId else None;
     inputError := if truthy (children p) then None
                   else Some (truthy (errorMessage p));
     requiredLabel := required p;
     errorRows := if truthy (errorMessage p) then
                    match asArray (errorMessage p) with
                    | Some messages => messages
                    | None => [errorMessage p]
                    end
                  else [];
     help := if truthy (helpMessage p) then Some (helpId, helpMessage p)
             else None |}.

(** X22: the wrapper refers to a help element exactly when one is rendered,
    and then by the [id] of that element: [aria-describedby] never names an
    element that is not there, and a rendered help message is never left
    unreferenced. *)
Theorem describedBy_names_rendered_help (helpId : string) (p : Props) :
  (forall i, describedBy (render helpId p) = Some i
             <-> exists n, help (render helpId p) = Some (i, n))
  /\ (describedBy (render helpId p) = None <-> help (render helpId p) = None).
Proof.
  simpl. destruct (truthy (helpMessage p)); split.
  - intros i. split.
    + intros [= <-]. exists (helpMessage p). reflexivity.
    + intros [n [= <- _]]. reflexivity.
  - split; discriminate.
  - intros i. split; [discriminate | intros [n Hn]; discriminate Hn].
  - split; reflexivity.
Qed.

(** X23: the error flag of the input and the rows of messages.  Whenever a
    row is rendered the input, if rendered, is flagged; a message that is an
    array gives one row for each of its elements, the falsy ones too, and a
    message that is not gives one row.  The converse fails for the empty
    array: it flags the input and renders no row. *)
Theorem error_rows_and_flag (helpId : string) (p : Props) :
  (errorRows (render helpId p) <> [] ->
   truthy (children p) = false ->
   inputError (render helpId p) = Some true)
  /\ (forall messages,
        asArray (errorMessage p) = Some messages ->
        errorRows (render helpId p) = messages)
  /\ (asArray (errorMessage p) = None ->
      errorRows (render helpId p)
      = if truthy (errorMessage p) then [errorMessage p] else [])
  /\ (asArray (errorMessage p) = Some [] ->
      truthy (children p) = false ->
      inputError (render helpId p) = Some true
      /\ errorRows (render helpId p) = []).
Proof.
  simpl. split; [ | split; [ | split]].
  - intros Hrows Hchildren. rewrite Hchildren.
    destruct (truthy (errorMessage p)); [reflexivity | ].
    exfalso. apply Hrows. reflexivity.
  - intros messages Harr. rewrite (array_truthy _ _ Harr), Harr. reflexivity.
  - intros Harr. rewrite Harr. reflexivity.
  - intros Harr Hchildren.
    rewrite Hchildren, (array_truthy _ _ Harr), Harr. split; reflexivity.
Qed.

End Render.

(** ** At concrete inputs *)

(** Nodes for the examples: [undefined], a text (falsy when empty) and an
    array of texts. *)
Inductive ExNode : Type :=
| ExUndefined
| ExText (s : string)
| ExArray (texts : list string).

Definition exTruthy (n : ExNode) : bool :=
  match n with
  | ExUndefined => false
  | ExText s => negb (bool_decide (s = ""))
  | ExArray _ => true
  end.

Definition exAsArray (n : ExNode) : option (list ExNode) :=
  match n with
  | ExArray texts => Some (ExText <$> texts)
  | _ => None
  end.

(** X23 at a concrete input: the empty array of messages. *)
Lemma error_rows_and_flag_example :
  inputError
    (render exTruthy exAsArray "help-1"
       {| errorMessage := ExArray []; helpMessage := ExUndefined;
          children := ExUndefined; required := false |})
  = Some true
  /\ errorRows
       (render exTruthy exAsArray "help-1"
          {| errorMessage := ExArray []; helpMessage := ExUndefined;
             children := ExUndefined; required := false |})
     = [].
Proof.
  refine (proj2 (proj2 (proj2
            (error_rows_and_flag exTruthy exAsArray _ "help-1"
               {| errorMessage := ExArray []; helpMessage := ExUndefined;
                  children := ExUndefined; required := false |}))) _ _).
  - intros n l Hn. destruct n; try discriminate Hn. reflexivity.
  - reflexivity.
  - reflexivity.
Defined.

Example falsy_rows_are_rendered :
  errorRows
    (render exTruthy exAsArray "help-1"
       {| errorMessage := ExArray ["too long"; ""];
          helpMessage := ExText ""; children := ExUndefined;
          required := true |})
  = [ExText "too long"; ExText ""].
Proof. reflexivity. Qed.


End FieldSet.
